(** * Embedded blink: the three-operation GPIO contract and its four backends

    A shallow embedding of the C backends behind [ffi/vitte_ffi.h]
    ([gpio_setup], [gpio_write], [sleep_ms]):

    - [Posix]   : embedded-blink/boards/posix/runner.c  (console simulation)
    - [Rp2040]  : embedded-blink/boards/rp2040/vitte_ffi_rp2040.c  (Pico SDK)
    - [Esp32]   : examples/embedded-blink/boards/esp32/main.c  (ESP-IDF, FreeRTOS)
    - [Stm32f4] : examples/embedded-blink/boards/stm32f4/gpio.c  (registers)

    Every C function becomes a computation in a small state-and-log monad:
    the state holds the file's [static] variables together with the part of
    the environment the function acts upon, the log records, in program
    order, what the function does to the outside (lines printed, driver
    calls, volatile register accesses). *)

From Stdlib Require Import ZArith String Ascii.
From stdpp Require Import base tactics option list gmap.

Local Open Scope Z_scope.

(** ** Programs with a state and an output log *)

Definition Prog (S E A : Type) : Type := S → A * S * list E.

Section prog.
Context {S E : Type}.

Definition ret {A} (a : A) : Prog S E A := λ s, (a, s, []).

Definition bind {A B} (m : Prog S E A) (f : A → Prog S E B) : Prog S E B :=
  λ s, let '(a, s1, l1) := m s in
       let '(b, s2, l2) := f a s1 in
       (b, s2, l1 ++ l2).

Definition get : Prog S E S := λ s, (s, s, []).
Definition modify (f : S → S) : Prog S E unit := λ s, (tt, f s, []).
Definition emit (e : E) : Prog S E unit := λ s, (tt, s, [e]).

(** Final state and log of a run. *)
Definition state_of {A} (r : A * S * list E) : S := r.1.2.
Definition log_of {A} (r : A * S * list E) : list E := r.2.
Definition value_of {A} (r : A * S * list E) : A := r.1.1.
End prog.

Notation "x <- m ;; k" := (bind m (λ x, k))
  (at level 100, m at next level, right associativity, only parsing).
Notation "m ;;; k" := (bind m (λ _, k))
  (at level 100, right associativity, only parsing).

(** ** C integers *)

Module C.
(** [value ? a : b] and [if (value)] test against zero. *)
Definition truthy (v : Z) : bool := negb (v =? 0).

(** [v ? 1 : 0] *)
Definition cond01 (v : Z) : Z := if truthy v then 1 else 0.

(** Conversion to [uint32_t], and [uint32_t] arithmetic. *)
Definition u32 (x : Z) : Z := x mod 2 ^ 32.

(** Conversion to [unsigned long long]. *)
Definition u64 (x : Z) : Z := x mod 2 ^ 64.

(** [atoi] of the C library: leading white space is skipped, an optional
  sign is read, then decimal digits up to the first other character; no
  digit at all gives 0.  (A value that does not fit an [int] is undefined
  in C; the model keeps the mathematical value.) *)
Definition isspace (c : ascii) : bool :=
  let n := Z.of_N (N_of_ascii c) in (n =? 32) || ((9 <=? n) && (n <=? 13)).

Definition isdigit (c : ascii) : bool :=
  let n := Z.of_N (N_of_ascii c) in (48 <=? n) && (n <=? 57).

Fixpoint skip_spaces (s : string) : string :=
  match s with
  | String c r => if isspace c then skip_spaces r else s
  | EmptyString => s
  end.

Fixpoint digits (acc : Z) (s : string) : Z :=
  match s with
  | String c r =>
    if isdigit c then digits (acc * 10 + (Z.of_N (N_of_ascii c) - 48)) r
    else acc
  | EmptyString => acc
  end.

Definition atoi (s : string) : Z :=
  match skip_spaces s with
  | String "-" r => - digits 0 r
  | String "+" r => digits 0 r
  | r => digits 0 r
  end.
End C.

(** ** boards/posix/runner.c *)

Module Posix.

Record timespec := { tv_sec : Z; tv_nsec : Z }.

(** What the process does to its environment: the two [fprintf] formats
    (the second prints ["ON"] or ["OFF"]) and the call to [nanosleep]. *)
Inductive event :=
| SetupLine (pin : Z)              (* "[posix] gpio_setup(pin=%d)\n" *)
| LedLine (pin : Z) (on : bool)    (* "LED[%d] = %s\n" *)
| Nanosleep (ts : timespec).

(** [static int g_pin = 12; static int g_state = 0;] *)
Record state := { g_pin : Z; g_state : Z }.

Definition boot : state := {| g_pin := 12; g_state := 0 |}.

Definition set_g_pin (v : Z) : Prog state event unit :=
  modify (λ s, {| g_pin := v; g_state := g_state s |}).
Definition set_g_state (v : Z) : Prog state event unit :=
  modify (λ s, {| g_pin := g_pin s; g_state := v |}).

Definition gpio_setup (pin : Z) : Prog state event unit :=
  set_g_pin pin ;;;
  set_g_state 0 ;;;
  emit (SetupLine pin).

Definition gpio_write (pin value : Z) : Prog state event unit :=
  s <- get ;;
  if negb (value =? g_state s) then
    set_g_state value ;;;
    s' <- get ;;
    emit (LedLine (g_pin s') (C.truthy (g_state s')))
  else ret tt.

(** [ts.tv_sec = ms/1000; ts.tv_nsec = (ms%1000)*1000000L;]
    C division truncates towards zero. *)
Definition timespec_of_ms (ms : Z) : timespec :=
  {| tv_sec := ms ÷ 1000; tv_nsec := Z.rem ms 1000 * 1000000 |}.

Definition sleep_ms (ms : Z) : Prog state event unit :=
  emit (Nanosleep (timespec_of_ms ms)).

(** The lines that report a level ("transition events"). *)
Definition is_transition (e : event) : bool :=
  match e with LedLine _ _ => true | _ => false end.

Definition transitions (l : list event) : list event :=
  filter (λ e, is_transition e = true) l.

(** [period = 500; if (argc > 1) period = atoi(argv[1]);] *)
Definition period_of (argv : list string) : Z :=
  if 1 <? Z.of_nat (length argv) then C.atoi (default EmptyString (argv !! 1%nat))
  else 500.

(** The body of [for (;;) { ... }], run [fuel] times.  The loop has no exit:
    when the fuel is spent the run stops with [None], and [return 0] is
    never reached. *)
Fixpoint blink (fuel : nat) (period : Z) : Prog state event (option Z) :=
  match fuel with
  | O => ret None
  | S fuel' =>
      gpio_write 12 1 ;;;
      sleep_ms period ;;;
      gpio_write 12 0 ;;;
      sleep_ms period ;;;
      blink fuel' period
  end.

Definition main (fuel : nat) (argv : list string) : Prog state event (option Z) :=
  let period := period_of argv in
  gpio_setup 12 ;;;
  blink fuel period.

(** The [nanosleep] requests of a run, in order. *)
Definition sleep_requests (l : list event) : list timespec :=
  omap (λ e, match e with Nanosleep ts => Some ts | _ => None end) l.

(** What the host does with a request: [nanosleep] fails at once with
    [EINVAL] unless [tv_sec >= 0] and [0 <= tv_nsec <= 999999999];
    otherwise the caller is suspended for at least the requested time. *)
Definition timespec_ok (ts : timespec) : bool :=
  (0 <=? tv_sec ts) && (0 <=? tv_nsec ts) && (tv_nsec ts <=? 999999999).

Definition min_suspension_ns (ts : timespec) : Z :=
  if timespec_ok ts then tv_sec ts * 1000000000 + tv_nsec ts else 0.

End Posix.

(** ** boards/rp2040/vitte_ffi_rp2040.c *)

(** The Pico SDK's GPIO functions the backend links against (they are not
    part of the repository): per-pin function select, output enable and
    output level.  [gpio_init] selects the SIO function after making the pin
    an input with a low output latch. *)
Module PicoSdk.

Inductive gpio_function := GPIO_FUNC_NULL | GPIO_FUNC_SIO.

Record bank := {
  funcsel : gmap Z gpio_function;
  oe : gmap Z bool;
  out : gmap Z Z
}.

Definition gpio_set_dir (gpio : Z) (is_out : bool) (b : bank) : bank :=
  {| funcsel := funcsel b; oe := <[gpio := is_out]> (oe b); out := out b |}.

Definition gpio_put (gpio : Z) (value : bool) (b : bank) : bank :=
  {| funcsel := funcsel b; oe := oe b;
     out := <[gpio := if value then 1 else 0]> (out b) |}.

Definition gpio_set_function (gpio : Z) (fn : gpio_function) (b : bank) : bank :=
  {| funcsel := <[gpio := fn]> (funcsel b); oe := oe b; out := out b |}.

Definition gpio_init (gpio : Z) (b : bank) : bank :=
  gpio_set_function gpio GPIO_FUNC_SIO
    (gpio_put gpio false (gpio_set_dir gpio false b)).

Definition GPIO_OUT : bool := true.

End PicoSdk.

Module Rp2040.

(** The SDK calls made, in program order. *)
Inductive call :=
| StdioInitAll
| GpioInit (gpio : Z)
| GpioSetDir (gpio : Z) (is_out : bool)
| GpioPut (gpio : Z) (value : bool).

(** [static int led_pin = 25;] and the pins it drives. *)
Record state := { led_pin : Z; sdk : PicoSdk.bank }.

Definition boot (b : PicoSdk.bank) : state := {| led_pin := 25; sdk := b |}.

Definition set_led_pin (v : Z) : Prog state call unit :=
  modify (λ s, {| led_pin := v; sdk := sdk s |}).

Definition sdk_call (c : call) (f : PicoSdk.bank → PicoSdk.bank) : Prog state call unit :=
  modify (λ s, {| led_pin := led_pin s; sdk := f (sdk s) |}) ;;;
  emit c.

Definition gpio_init (gpio : Z) := sdk_call (GpioInit gpio) (PicoSdk.gpio_init gpio).
Definition gpio_set_dir (gpio : Z) (o : bool) :=
  sdk_call (GpioSetDir gpio o) (PicoSdk.gpio_set_dir gpio o).
Definition gpio_put (gpio : Z) (v : bool) :=
  sdk_call (GpioPut gpio v) (PicoSdk.gpio_put gpio v).
Definition stdio_init_all := sdk_call StdioInitAll (λ b, b).

(** The SDK functions take [uint gpio]: the [int] held in [led_pin] is
    converted to unsigned at each call. *)
Definition gpio_setup (pin : Z) : Prog state call unit :=
  set_led_pin pin ;;;
  s <- get ;; gpio_init (C.u32 (led_pin s)) ;;;
  s <- get ;; gpio_set_dir (C.u32 (led_pin s)) PicoSdk.GPIO_OUT ;;;
  s <- get ;; gpio_put (C.u32 (led_pin s)) (C.truthy 0).

Definition gpio_write (pin value : Z) : Prog state call unit :=
  s <- get ;; gpio_put (C.u32 (led_pin s)) (C.truthy (C.cond01 value)).

(** [void sleep_ms(int ms){ sleep_ms(ms); }]: inside the definition the name
    denotes the function being defined, so the body is a call to itself.
    Each call spends one unit of fuel; [None] is a run that has not returned
    when the fuel is spent. *)
Fixpoint sleep_ms (fuel : nat) (ms : Z) : Prog state call (option unit) :=
  match fuel with
  | O => ret None
  | S fuel' =>
      r <- sleep_ms fuel' ms ;;
      match r with
      | Some tt => ret (Some tt)
      | None => ret None
      end
  end.

(** [while(1){ gpio_write(25, 1); sleep_ms(500); gpio_write(25, 0); sleep_ms(500); }]:
    a statement is run only once the call before it has returned. *)
Fixpoint blink (fuel : nat) : Prog state call (option Z) :=
  match fuel with
  | O => ret None
  | S fuel' =>
      gpio_write 25 1 ;;;
      r1 <- sleep_ms fuel' 500 ;;
      match r1 with
      | None => ret None
      | Some tt =>
          gpio_write 25 0 ;;;
          r2 <- sleep_ms fuel' 500 ;;
          match r2 with
          | None => ret None
          | Some tt => blink fuel'
          end
      end
  end.

Definition main (fuel : nat) : Prog state call (option Z) :=
  stdio_init_all ;;;
  gpio_setup 25 ;;;
  blink fuel.

End Rp2040.

(** ** boards/esp32/main.c *)

Module Esp32.

Inductive esp_err_t := ESP_OK | ESP_ERR_INVALID_ARG.
Inductive gpio_mode_t := GPIO_MODE_DISABLE | GPIO_MODE_INPUT | GPIO_MODE_OUTPUT.
Inductive gpio_int_type_t := GPIO_INTR_DISABLE | GPIO_INTR_ANYEDGE.

Record gpio_config_t := {
  pin_bit_mask : Z;
  mode : gpio_mode_t;
  pull_up_en : Z;
  pull_down_en : Z;
  intr_type : gpio_int_type_t
}.

(** What the vendor driver holds for each pin. *)
Record driver := { modes : gmap Z gpio_mode_t; levels : gmap Z Z }.

(** The driver and RTOS calls made, in program order, with the status the
    driver returned. *)
Inductive call :=
| GpioConfig (c : gpio_config_t) (r : esp_err_t)
| GpioSetLevel (gpio level : Z) (r : esp_err_t)
| VTaskDelay (ticks : Z).

(** [static gpio_num_t led_pin = GPIO_NUM_2;] *)
Record state := { led_pin : Z; drv : driver }.

Definition GPIO_NUM_2 : Z := 2.

Definition boot (d : driver) : state := {| led_pin := GPIO_NUM_2; drv := d |}.

Section target.

(** The chip's output-capable pin numbers and the RTOS tick period in
    milliseconds come from the vendor headers; they are parameters here. *)
Variable valid_output : Z → bool.
Variable portTICK_PERIOD_MS : Z.

(** The pins selected by a 64-bit mask. *)
Definition mask_pins (mask : Z) : list Z :=
  List.filter (Z.testbit mask) (seqZ 0 64).

(** The vendor driver (not part of the repository): [gpio_config] rejects
    an empty mask and a mask that selects a pin the chip cannot drive, and
    otherwise sets the mode of every selected pin; [gpio_set_level] rejects
    a pin the chip cannot drive and otherwise latches the level. *)
Definition drv_gpio_config (c : gpio_config_t) (d : driver) : esp_err_t * driver :=
  if (pin_bit_mask c =? 0) || negb (forallb valid_output (mask_pins (pin_bit_mask c)))
  then (ESP_ERR_INVALID_ARG, d)
  else (ESP_OK,
        {| modes := foldr (λ i m, <[i := mode c]> m) (modes d) (mask_pins (pin_bit_mask c));
           levels := levels d |}).

Definition drv_gpio_set_level (gpio level : Z) (d : driver) : esp_err_t * driver :=
  if valid_output gpio
  then (ESP_OK, {| modes := modes d; levels := <[gpio := C.cond01 level]> (levels d) |})
  else (ESP_ERR_INVALID_ARG, d).

Definition set_led_pin (v : Z) : Prog state call unit :=
  modify (λ s, {| led_pin := v; drv := drv s |}).

Definition gpio_config (c : gpio_config_t) : Prog state call esp_err_t :=
  λ s, let '(r, d) := drv_gpio_config c (drv s) in
       (r, {| led_pin := led_pin s; drv := d |}, [GpioConfig c r]).

Definition gpio_set_level (gpio level : Z) : Prog state call esp_err_t :=
  λ s, let '(r, d) := drv_gpio_set_level gpio level (drv s) in
       (r, {| led_pin := led_pin s; drv := d |}, [GpioSetLevel gpio level r]).

Definition vTaskDelay (ticks : Z) : Prog state call unit :=
  emit (VTaskDelay ticks).

(** [.pin_bit_mask = (1ULL<<led_pin)]: C defines the shift for
    [0 <= led_pin < 64] only.  Outside that range the value below (0) stands
    for an undefined result and is not what a compiled image computes;
    what is stated about the mask is stated for pins 0 to 63. *)
Definition io_conf_of (led_pin : Z) : gpio_config_t :=
  {| pin_bit_mask := C.u64 (Z.shiftl 1 led_pin);
     mode := GPIO_MODE_OUTPUT;
     pull_up_en := 0;
     pull_down_en := 0;
     intr_type := GPIO_INTR_DISABLE |}.

(** Both driver calls are statements: the status they return is dropped. *)
Definition gpio_setup (pin : Z) : Prog state call unit :=
  set_led_pin pin ;;;
  s <- get ;;
  let io_conf := io_conf_of (led_pin s) in
  _ <- gpio_config io_conf ;;
  s <- get ;;
  _ <- gpio_set_level (led_pin s) 0 ;;
  ret tt.

Definition gpio_write (pin value : Z) : Prog state call unit :=
  s <- get ;;
  _ <- gpio_set_level (led_pin s) (C.cond01 value) ;;
  ret tt.

(** [vTaskDelay(ms / portTICK_PERIOD_MS)]: the tick period is a [TickType_t]
    (unsigned 32-bit), so [ms] is converted to unsigned for the division. *)
Definition ticks_of_ms (ms : Z) : Z := C.u32 ms / portTICK_PERIOD_MS.

Definition sleep_ms (ms : Z) : Prog state call unit :=
  vTaskDelay (ticks_of_ms ms).

(** The time covered by the ticks requested for [ms] milliseconds. *)
Definition requested_ms (ms : Z) : Z := ticks_of_ms ms * portTICK_PERIOD_MS.

(** [while(1){ gpio_write((int)led_pin, 1); sleep_ms(500);
               gpio_write((int)led_pin, 0); sleep_ms(500); }], run [fuel]
    times; the loop has no exit. *)
Fixpoint blink (fuel : nat) : Prog state call (option unit) :=
  match fuel with
  | O => ret None
  | S fuel' =>
      s <- get ;; gpio_write (led_pin s) 1 ;;;
      sleep_ms 500 ;;;
      s <- get ;; gpio_write (led_pin s) 0 ;;;
      sleep_ms 500 ;;;
      blink fuel'
  end.

(** [app_main] passes the current value of the static [led_pin]. *)
Definition app_main (fuel : nat) : Prog state call (option unit) :=
  s <- get ;; gpio_setup (led_pin s) ;;;
  blink fuel.

End target.

(** The level calls of a log. *)
Definition is_set_level (c : call) : bool :=
  match c with GpioSetLevel _ _ _ => true | _ => false end.

(** An instance of the chip parameter, used for concrete runs: pins 0 to 33
    can be driven. *)
Definition pins_0_33 (p : Z) : bool := (0 <=? p) && (p <=? 33).

Definition no_driver_state : driver := {| modes := ∅; levels := ∅ |}.

End Esp32.

(** ** boards/stm32f4/gpio.c *)

Module Stm32f4.

Definition PERIPH_BASE : Z := 0x40000000.
Definition AHB1PERIPH_BASE : Z := 0x40020000.
Definition RCC_BASE : Z := 0x40023800.
Definition GPIOD_BASE : Z := AHB1PERIPH_BASE + 0x0C00.

Definition RCC_AHB1ENR : Z := RCC_BASE + 0x30.
Definition GPIOD_MODER : Z := GPIOD_BASE + 0x00.
Definition GPIOD_BSRR : Z := GPIOD_BASE + 0x18.

(** The port's output data register; the source never names it, it is where
    the effect of a set/reset write shows. *)
Definition GPIOD_ODR : Z := GPIOD_BASE + 0x14.

(** Volatile accesses and the busy-wait instruction, in program order. *)
Inductive access :=
| Load (addr value : Z)
| Store (addr value : Z)
| Nop.

(** [static int led_pin = 12;] and the peripheral registers. *)
Record state := { led_pin : Z; regs : gmap Z Z }.

Definition boot (r : gmap Z Z) : state := {| led_pin := 12; regs := r |}.

(** The peripheral bus.  A register reads as the value it holds.  A store to
    the set/reset register is not kept: bits 0-15 set, and bits 16-31 reset,
    the corresponding bit of the output data register (set wins). *)
Definition bus_read (addr : Z) (r : gmap Z Z) : Z := default 0 (r !! addr).

Definition odr_after (odr v : Z) : Z :=
  Z.lor (Z.land odr (Z.lnot (Z.land (Z.shiftr v 16) 0xFFFF))) (Z.land v 0xFFFF).

Definition bus_write (addr v : Z) (r : gmap Z Z) : gmap Z Z :=
  if decide (addr = GPIOD_BSRR)
  then <[GPIOD_ODR := odr_after (bus_read GPIOD_ODR r) v]> r
  else <[addr := v]> r.

Definition set_led_pin (v : Z) : Prog state access unit :=
  modify (λ s, {| led_pin := v; regs := regs s |}).

Definition load (addr : Z) : Prog state access Z :=
  λ s, let v := bus_read addr (regs s) in (v, s, [Load addr v]).

Definition store (addr v : Z) : Prog state access unit :=
  λ s, (tt, {| led_pin := led_pin s; regs := bus_write addr v (regs s) |},
        [Store addr v]).

(** [REG |= bits] and [REG &= bits] on a volatile register: one load, then
    one store. *)
Definition or_assign (addr bits : Z) : Prog state access unit :=
  v <- load addr ;; store addr (Z.lor v bits).

Definition and_assign (addr bits : Z) : Prog state access unit :=
  v <- load addr ;; store addr (Z.land v bits).

Definition gpio_setup (pin : Z) : Prog state access unit :=
  set_led_pin 12 ;;;
  or_assign RCC_AHB1ENR (Z.shiftl 1 3) ;;;
  and_assign GPIOD_MODER (C.u32 (Z.lnot (Z.shiftl 3 (12 * 2)))) ;;;
  or_assign GPIOD_MODER (Z.shiftl 1 (12 * 2)) ;;;
  store GPIOD_BSRR (Z.shiftl 1 (12 + 16)).

Definition gpio_write (pin value : Z) : Prog state access unit :=
  if C.truthy value then store GPIOD_BSRR (Z.shiftl 1 12)
  else store GPIOD_BSRR (Z.shiftl 1 (12 + 16)).

(** [while (n--) nop;]: the test reads [n] and decrements it (modulo 2^32)
    whether or not the loop goes on.  The result is the last value of [n]. *)
Fixpoint busy_wait (fuel : nat) (n : Z) : Prog state access (option Z) :=
  match fuel with
  | O => ret None
  | S fuel' =>
      if C.truthy n then emit Nop ;;; busy_wait fuel' (C.u32 (n - 1))
      else ret (Some (C.u32 (n - 1)))
  end.

(** [volatile uint32_t n = (uint32_t)ms * 16000u;] *)
Definition loop_count (ms : Z) : Z := C.u32 (C.u32 ms * 16000).

Definition sleep_ms (fuel : nat) (ms : Z) : Prog state access (option unit) :=
  r <- busy_wait fuel (loop_count ms) ;;
  ret (match r with Some _ => Some tt | None => None end).

(** The register writes of a log, in order. *)
Definition stores (l : list access) : list (Z * Z) :=
  omap (λ a, match a with Store addr v => Some (addr, v) | _ => None end) l.

(** Level of pin 12 on the port's output. *)
Definition pin12 (s : state) : bool := Z.testbit (bus_read GPIOD_ODR (regs s)) 12.

(** [for(;;){ gpio_write(12, 1); sleep_ms(500); gpio_write(12, 0); sleep_ms(500); }]
    run [loops] times, each busy-wait with [wait] units of fuel; a statement
    is run only once the call before it has returned, and the loop has no
    exit. *)
Fixpoint blink (loops wait : nat) : Prog state access (option Z) :=
  match loops with
  | O => ret None
  | S loops' =>
      gpio_write 12 1 ;;;
      r1 <- sleep_ms wait 500 ;;
      match r1 with
      | None => ret None
      | Some tt =>
          gpio_write 12 0 ;;;
          r2 <- sleep_ms wait 500 ;;
          match r2 with
          | None => ret None
          | Some tt => blink loops' wait
          end
      end
  end.

Definition main (loops wait : nat) : Prog state access (option Z) :=
  gpio_setup 12 ;;;
  blink loops wait.

(** The loads of a log. *)
Definition loads (l : list access) : list (Z * Z) :=
  omap (λ a, match a with Load addr v => Some (addr, v) | _ => None end) l.



End Stm32f4.

(** ** The contract, over the four backends

    One image links exactly one backend; [backend] names which. *)

Inductive backend := Simulation | RtosEsp32 | RtosRp2040 | BareMetal.

Section contract.

Variable valid_output : Z → bool.

Definition state (b : backend) : Type :=
  match b with
  | Simulation => Posix.state
  | RtosEsp32 => Esp32.state
  | RtosRp2040 => Rp2040.state
  | BareMetal => Stm32f4.state
  end.

Definition event (b : backend) : Type :=
  match b with
  | Simulation => Posix.event
  | RtosEsp32 => Esp32.call
  | RtosRp2040 => Rp2040.call
  | BareMetal => Stm32f4.access
  end.

Definition configure (b : backend) : Z → Prog (state b) (event b) unit :=
  match b with
  | Simulation => Posix.gpio_setup
  | RtosEsp32 => Esp32.gpio_setup valid_output
  | RtosRp2040 => Rp2040.gpio_setup
  | BareMetal => Stm32f4.gpio_setup
  end.

Definition write (b : backend) : Z → Z → Prog (state b) (event b) unit :=
  match b with
  | Simulation => Posix.gpio_write
  | RtosEsp32 => Esp32.gpio_write valid_output
  | RtosRp2040 => Rp2040.gpio_write
  | BareMetal => Stm32f4.gpio_write
  end.

Fixpoint write_all (b : backend) (ws : list (Z * Z)) : Prog (state b) (event b) unit :=
  match ws with
  | [] => ret tt
  | (p, v) :: ws' => write b p v ;;; write_all b ws'
  end.

(** The pin a backend has on record. *)
Definition stored_pin (b : backend) : state b → Z :=
  match b with
  | Simulation => Posix.g_pin
  | RtosEsp32 => Esp32.led_pin
  | RtosRp2040 => Rp2040.led_pin
  | BareMetal => Stm32f4.led_pin
  end.

(** The pin identities each target resolves: every simulation slot; the
    pins the ESP32 can drive; the RP2040's bank of 30; on the STM32F4 board
    the one line the backend is written for, D12. *)
Definition resolvable (b : backend) (p : Z) : Prop :=
  match b with
  | Simulation => True
  | RtosEsp32 => valid_output p = true
  | RtosRp2040 => 0 ≤ p < 30
  | BareMetal => p = 12
  end.

(** Level of the output of the stored pin: the simulated line, the level the
    driver has latched for the pin, bit 12 of the port.  [None]: the driver
    has no level for the pin. *)
Definition line (b : backend) : state b → option bool :=
  match b with
  | Simulation => λ s, Some (C.truthy (Posix.g_state s))
  | RtosEsp32 => λ s, C.truthy <$> Esp32.levels (Esp32.drv s) !! Esp32.led_pin s
  | RtosRp2040 => λ s, C.truthy <$> PicoSdk.out (Rp2040.sdk s) !! Rp2040.led_pin s
  | BareMetal => λ s, Some (Stm32f4.pin12 s)
  end.

(** Whether the stored pin is set up to drive its line: the vendor driver
    holds it in output mode; the SDK has it on the SIO function with its
    output enabled; the GPIOD clock is on and the two mode bits of pin 12
    read 01.  The simulated line has no direction. *)
Definition is_output (b : backend) : state b → Prop :=
  match b with
  | Simulation => λ _, True
  | RtosEsp32 => λ s,
      Esp32.modes (Esp32.drv s) !! Esp32.led_pin s = Some Esp32.GPIO_MODE_OUTPUT
  | RtosRp2040 => λ s,
      PicoSdk.funcsel (Rp2040.sdk s) !! Rp2040.led_pin s = Some PicoSdk.GPIO_FUNC_SIO
      ∧ PicoSdk.oe (Rp2040.sdk s) !! Rp2040.led_pin s = Some true
  | BareMetal => λ s,
      Z.testbit (Stm32f4.bus_read Stm32f4.RCC_AHB1ENR (Stm32f4.regs s)) 3 = true
      ∧ Z.testbit (Stm32f4.bus_read Stm32f4.GPIOD_MODER (Stm32f4.regs s)) 24 = true
      ∧ Z.testbit (Stm32f4.bus_read Stm32f4.GPIOD_MODER (Stm32f4.regs s)) 25 = false
  end.

End contract.

(** ** Observations on logs *)

(** A log in which a level call follows a [gpio_config] the driver refused. *)
Fixpoint continues_after_rejection (l : list Esp32.call) : bool :=
  match l with
  | [] => false
  | Esp32.GpioConfig _ Esp32.ESP_ERR_INVALID_ARG :: l' =>
      existsb Esp32.is_set_level l' || continues_after_rejection l'
  | _ :: l' => continues_after_rejection l'
  end.

(** The values [gpio_setup] writes, from the values it reads. *)
Definition rcc_enabled (rcc : Z) : Z := Z.lor rcc (Z.shiftl 1 3).
Definition moder_cleared (moder : Z) : Z :=
  Z.land moder (C.u32 (Z.lnot (Z.shiftl 3 (12 * 2)))).
Definition moder_output (moder : Z) : Z :=
  Z.lor (moder_cleared moder) (Z.shiftl 1 (12 * 2)).

(** In a log: every store to the mode register comes after a store to the
    clock-enable register that has the GPIOD clock bit (bit 3) set. *)
Fixpoint clock_before_mode (clock_on : bool) (l : list Stm32f4.access) : bool :=
  match l with
  | [] => true
  | Stm32f4.Store addr v :: l' =>
      if decide (addr = Stm32f4.GPIOD_MODER) then clock_on && clock_before_mode clock_on l'
      else if decide (addr = Stm32f4.RCC_AHB1ENR) then clock_before_mode (Z.testbit v 3) l'
      else clock_before_mode clock_on l'
  | _ :: l' => clock_before_mode clock_on l'
  end.

(** The values of a sequence of writes that differ from the value before
    them, [cur] being the value before the first. *)
Fixpoint value_changes (cur : Z) (vs : list Z) : list Z :=
  match vs with
  | [] => []
  | v :: vs' => if v =? cur then value_changes cur vs' else v :: value_changes v vs'
  end.

(** * Properties *)

Ltac prog :=
  cbv [bind ret get modify emit state_of log_of value_of]; cbn [fst snd].

(** ** Simulation backend *)

Lemma posix_gpio_setup_run pin s :
  Posix.gpio_setup pin s
  = (tt, {| Posix.g_pin := pin; Posix.g_state := 0 |}, [Posix.SetupLine pin]).
Proof. reflexivity. Qed.

Lemma posix_gpio_write_run pin value s :
  Posix.gpio_write pin value s
  = if value =? Posix.g_state s then (tt, s, [])
    else (tt, {| Posix.g_pin := Posix.g_pin s; Posix.g_state := value |},
          [Posix.LedLine (Posix.g_pin s) (C.truthy value)]).
Proof.
  unfold Posix.gpio_write. prog.
  destruct (value =? Posix.g_state s); reflexivity.
Qed.

Lemma posix_gpio_write_state pin value s :
  Posix.g_state (state_of (Posix.gpio_write pin value s)) = value
  ∧ Posix.g_pin (state_of (Posix.gpio_write pin value s)) = Posix.g_pin s.
Proof.
  rewrite posix_gpio_write_run.
  destruct (Z.eqb_spec value (Posix.g_state s)) as [->|]; split; reflexivity.
Qed.

(** *** Sequencing *)

Section prog_facts.
Context {S E : Type}.

Lemma bind_run {A B} (m : Prog S E A) (f : A → Prog S E B) (s : S) :
  bind m f s
  = (value_of (f (value_of (m s)) (state_of (m s))),
     state_of (f (value_of (m s)) (state_of (m s))),
     log_of (m s) ++ log_of (f (value_of (m s)) (state_of (m s)))).
Proof.
  unfold bind, value_of, state_of, log_of.
  destruct (m s) as [[a s1] l1]; cbn.
  destruct (f a s1) as [[b s2] l2]; reflexivity.
Qed.

Lemma state_of_bind {A B} (m : Prog S E A) (f : A → Prog S E B) s :
  state_of (bind m f s) = state_of (f (value_of (m s)) (state_of (m s))).
Proof. rewrite bind_run. reflexivity. Qed.

Lemma log_of_bind {A B} (m : Prog S E A) (f : A → Prog S E B) s :
  log_of (bind m f s) = log_of (m s) ++ log_of (f (value_of (m s)) (state_of (m s))).
Proof. rewrite bind_run. reflexivity. Qed.

Lemma value_of_bind {A B} (m : Prog S E A) (f : A → Prog S E B) s :
  value_of (bind m f s) = value_of (f (value_of (m s)) (state_of (m s))).
Proof. rewrite bind_run. reflexivity. Qed.

End prog_facts.

Lemma posix_transitions_app l1 l2 :
  Posix.transitions (l1 ++ l2) = Posix.transitions l1 ++ Posix.transitions l2.
Proof. apply filter_app. Qed.

Lemma posix_gpio_write_transitions pin value s :
  Posix.transitions (log_of (Posix.gpio_write pin value s))
  = if value =? Posix.g_state s then []
    else [Posix.LedLine (Posix.g_pin s) (C.truthy value)].
Proof.
  rewrite posix_gpio_write_run.
  destruct (value =? Posix.g_state s); reflexivity.
Qed.

Lemma posix_gpio_write_again pin pin' value s :
  Posix.gpio_write pin' value (state_of (Posix.gpio_write pin value s))
  = (tt, state_of (Posix.gpio_write pin value s), []).
Proof.
  rewrite (posix_gpio_write_run pin').
  destruct (posix_gpio_write_state pin value s) as [-> _].
  rewrite Z.eqb_refl. reflexivity.
Qed.

(** In the simulation backend [gpio_write] prints one level line when
    the value written differs from the recorded state and nothing when it
    is the same; writing the same level twice in a row prints at most one
    level line, the second call printing none; [gpio_setup] prints no level
    line; and [configure(12); write(12,1); write(12,0); write(12,1)] prints
    exactly the level lines ON, OFF, ON for pin 12, from any starting
    state. *)
Theorem posix_one_event_per_transition :
  (∀ pin value s,
     Posix.transitions (log_of (Posix.gpio_write pin value s))
     = if value =? Posix.g_state s then []
       else [Posix.LedLine (Posix.g_pin s) (C.truthy value)])
  ∧ (∀ p l1 s,
       (length (Posix.transitions
          (log_of ((Posix.gpio_write p l1 ;;; Posix.gpio_write p l1) s))) ≤ 1)%nat
       ∧ log_of (Posix.gpio_write p l1 (state_of (Posix.gpio_write p l1 s))) = [])
  ∧ (∀ s,
       Posix.transitions (log_of (Posix.gpio_setup 12 s)) = []
       ∧ Posix.transitions
           (log_of ((Posix.gpio_setup 12 ;;; Posix.gpio_write 12 1 ;;;
                     Posix.gpio_write 12 0 ;;; Posix.gpio_write 12 1) s))
         = [Posix.LedLine 12 true; Posix.LedLine 12 false; Posix.LedLine 12 true]).
Proof.
  split; [exact posix_gpio_write_transitions|]. split.
  - intros p l1 s. rewrite posix_gpio_write_again. split; [|reflexivity].
    rewrite log_of_bind, posix_gpio_write_again, app_nil_r.
    rewrite posix_gpio_write_transitions.
    destruct (l1 =? Posix.g_state s); cbn; lia.
  - intros s. split; reflexivity.
Qed.

(** The comparison is on the [int] written, not on its level: two different
    non-zero values in a row print ON twice. *)
Example posix_nonzero_values_compare_raw :
  Posix.transitions
    (log_of ((Posix.gpio_write 12 1 ;;; Posix.gpio_write 12 2) Posix.boot))
  = [Posix.LedLine 12 true; Posix.LedLine 12 true].
Proof. reflexivity. Qed.

(** C5.  The simulation backend does not keep to one level line per level
    transition: it compares the [int] written with the [int] recorded, so
    after [configure(12); write(12,1)] a [write(12,2)], which asks for the
    level the line already has, prints ON a second time.  The three other
    backends reduce the value to its level first: there [write(p,2)] is
    [write(p,1)]. *)
Theorem posix_same_level_printed_twice :
  (∀ s,
     Posix.transitions
       (log_of ((Posix.gpio_setup 12 ;;; Posix.gpio_write 12 1 ;;;
                 Posix.gpio_write 12 2) s))
     = [Posix.LedLine 12 true; Posix.LedLine 12 true])
  ∧ C.truthy 2 = C.truthy 1
  ∧ (∀ valid_output p se,
       Esp32.gpio_write valid_output p 2 se = Esp32.gpio_write valid_output p 1 se)
  ∧ (∀ p sr, Rp2040.gpio_write p 2 sr = Rp2040.gpio_write p 1 sr)
  ∧ (∀ p sb, Stm32f4.gpio_write p 2 sb = Stm32f4.gpio_write p 1 sb).
Proof.
  split; [intros s; reflexivity|].
  split; [reflexivity|].
  split; [intros valid_output p se; reflexivity|].
  split; [intros p sr; reflexivity|].
  intros p sb. reflexivity.
Qed.

(** ** Delays *)

Lemma rp2040_sleep_ms_run fuel ms s :
  Rp2040.sleep_ms fuel ms s = (None, s, []).
Proof.
  induction fuel as [|fuel IH]; [reflexivity|].
  cbn [Rp2040.sleep_ms]. unfold bind. rewrite IH. reflexivity.
Qed.

(** C1.  On the RP2040 backend [sleep_ms] is a call to itself and nothing
    else: whatever the duration and however many calls are allowed, the run
    has not returned, and it has done nothing to the state or the outside.
    In particular [sleep_ms(500)], as the backend's own loop calls it, does
    not return. *)
Theorem rp2040_sleep_ms_never_returns :
  (∀ fuel ms s,
     value_of (Rp2040.sleep_ms fuel ms s) = None
     ∧ state_of (Rp2040.sleep_ms fuel ms s) = s
     ∧ log_of (Rp2040.sleep_ms fuel ms s) = [])
  ∧ (∀ fuel s, value_of (Rp2040.sleep_ms fuel 500 s) ≠ Some tt).
Proof.
  split.
  - intros fuel ms s. rewrite rp2040_sleep_ms_run. repeat split.
  - intros fuel s. rewrite rp2040_sleep_ms_run. discriminate.
Qed.

(** X18.  The RP2040 loop therefore switches the LED on once and never off. *)
Lemma rp2040_main_stuck_on fuel b :
  log_of (Rp2040.main (S fuel) (Rp2040.boot b))
  = [Rp2040.StdioInitAll; Rp2040.GpioInit 25; Rp2040.GpioSetDir 25 true;
     Rp2040.GpioPut 25 false; Rp2040.GpioPut 25 true]
  ∧ value_of (Rp2040.main (S fuel) (Rp2040.boot b)) = None.
Proof.
  unfold Rp2040.main. cbn [Rp2040.blink].
  rewrite !bind_run, rp2040_sleep_ms_run. split; reflexivity.
Qed.

Lemma u32_small n : 0 ≤ n < 2 ^ 32 → C.u32 n = n.
Proof. intros H. unfold C.u32. apply Z.mod_small. exact H. Qed.

Lemma stm32_busy_wait_run fuel : ∀ n s,
  0 ≤ n < 2 ^ 32 → (Z.to_nat n < fuel)%nat →
  Stm32f4.busy_wait fuel n s
  = (Some (2 ^ 32 - 1), s, repeat Stm32f4.Nop (Z.to_nat n)).
Proof.
  induction fuel as [|fuel IH]; intros n s Hn Hfuel; [lia|].
  cbn [Stm32f4.busy_wait]. unfold C.truthy.
  destruct (Z.eqb_spec n 0) as [->|Hne]; cbn [negb].
  - reflexivity.
  - rewrite bind_run. cbn [emit value_of state_of log_of fst snd].
    rewrite u32_small by lia. rewrite IH by lia.
    cbn [value_of state_of log_of fst snd app].
    replace (Z.to_nat n) with (S (Z.to_nat (n - 1))) by lia.
    reflexivity.
Qed.

Lemma stm32_loop_count_range ms : 0 ≤ Stm32f4.loop_count ms < 2 ^ 32.
Proof. unfold Stm32f4.loop_count, C.u32. apply Z.mod_pos_bound. lia. Qed.

(** The bare-metal busy-wait returns once it has run its [nop] as many
    times as the counter says. *)
Lemma stm32_sleep_ms_returns ms s fuel :
  (Z.to_nat (Stm32f4.loop_count ms) < fuel)%nat →
  Stm32f4.sleep_ms fuel ms s
  = (Some tt, s, repeat Stm32f4.Nop (Z.to_nat (Stm32f4.loop_count ms))).
Proof.
  intros Hfuel. unfold Stm32f4.sleep_ms. rewrite bind_run.
  rewrite stm32_busy_wait_run by (apply stm32_loop_count_range || exact Hfuel).
  cbn [ret value_of state_of log_of fst snd]. rewrite app_nil_r. reflexivity.
Qed.

Lemma posix_timespec_of_ms d :
  0 ≤ d →
  Posix.timespec_ok (Posix.timespec_of_ms d) = true
  ∧ Posix.min_suspension_ns (Posix.timespec_of_ms d) = d * 1000000.
Proof.
  intros Hd.
  assert (Hq : 0 ≤ d ÷ 1000) by (apply Z.quot_pos; lia).
  assert (Hr : 0 ≤ Z.rem d 1000 < 1000) by (apply Z.rem_bound_pos; lia).
  assert (Hok : Posix.timespec_ok (Posix.timespec_of_ms d) = true).
  { unfold Posix.timespec_ok, Posix.timespec_of_ms. cbn [Posix.tv_sec Posix.tv_nsec].
    rewrite !andb_true_iff, !Z.leb_le. lia. }
  split; [exact Hok|].
  unfold Posix.min_suspension_ns. rewrite Hok.
  unfold Posix.timespec_of_ms. cbn [Posix.tv_sec Posix.tv_nsec].
  pose proof (Z.quot_rem' d 1000). lia.
Qed.

Lemma esp32_ticks_of_ms period d :
  0 ≤ d < 2 ^ 31 → Esp32.ticks_of_ms period d = d / period.
Proof.
  intros Hd. unfold Esp32.ticks_of_ms. rewrite u32_small by lia. reflexivity.
Qed.

Lemma esp32_requested_ms_bounds period d :
  0 < period → 0 ≤ d < 2 ^ 31 →
  Esp32.requested_ms period d ≤ d < Esp32.requested_ms period d + period
  ∧ (Esp32.requested_ms period d = d ↔ (period | d)).
Proof.
  intros Hp Hd. unfold Esp32.requested_ms. rewrite esp32_ticks_of_ms by exact Hd.
  pose proof (Z.div_mod d period ltac:(lia)) as Hdm.
  pose proof (Z.mod_pos_bound d period Hp) as Hm.
  split; [lia|]. split.
  - intros H. exists (d / period). lia.
  - intros [k ->]. rewrite Z.div_mul by lia. reflexivity.
Qed.

(** C3, as the code has it.  For a duration [d] that an [int] holds and is
    not negative: the simulation backend asks the host for one sleep, a
    well-formed request of exactly [d] milliseconds; the RTOS backend asks
    the scheduler for [d / portTICK_PERIOD_MS] ticks, rounded down, which
    cover at most [d] milliseconds, fall short of [d] by less than one tick
    period, and cover [d] exactly when [d] is a multiple of the tick
    period; the bare-metal backend returns after [d * 16000 mod 2^32] loop
    iterations, which is [d * 16000] up to [d = 268435]. *)
Theorem delay_requests d period fuel sp se sb :
  0 ≤ d < 2 ^ 31 → 0 < period →
  (Z.to_nat (Stm32f4.loop_count d) < fuel)%nat →
  (log_of (Posix.sleep_ms d sp) = [Posix.Nanosleep (Posix.timespec_of_ms d)]
   ∧ Posix.timespec_ok (Posix.timespec_of_ms d) = true
   ∧ Posix.min_suspension_ns (Posix.timespec_of_ms d) = d * 1000000)
  ∧ (log_of (Esp32.sleep_ms period d se) = [Esp32.VTaskDelay (d / period)]
     ∧ Esp32.requested_ms period d ≤ d < Esp32.requested_ms period d + period
     ∧ (Esp32.requested_ms period d = d ↔ (period | d)))
  ∧ (Stm32f4.sleep_ms fuel d sb
       = (Some tt, sb, repeat Stm32f4.Nop (Z.to_nat (Stm32f4.loop_count d)))
     ∧ Stm32f4.loop_count d = (d * 16000) mod 2 ^ 32
     ∧ (d ≤ 268435 → Stm32f4.loop_count d = d * 16000)).
Proof.
  intros Hd Hp Hfuel. split; [|split].
  - split; [reflexivity|]. apply posix_timespec_of_ms. lia.
  - split.
    + unfold Esp32.sleep_ms, Esp32.vTaskDelay. cbn [emit log_of snd].
      rewrite esp32_ticks_of_ms by exact Hd. reflexivity.
    + apply esp32_requested_ms_bounds; assumption.
  - split; [apply stm32_sleep_ms_returns; exact Hfuel|].
    assert (Hc : Stm32f4.loop_count d = (d * 16000) mod 2 ^ 32).
    { unfold Stm32f4.loop_count. rewrite (u32_small d) by lia. reflexivity. }
    split; [exact Hc|].
    intros Hsmall. rewrite Hc. apply Z.mod_small. lia.
Qed.

Lemma delay_requests_witness :
  Esp32.requested_ms 10 250 = 250
  ∧ Posix.min_suspension_ns (Posix.timespec_of_ms 250) = 250 * 1000000.
Proof.
  assert (H1 : 0 ≤ 250 < 2 ^ 31) by lia.
  assert (H2 : 0 < 10) by lia.
  assert (H3 : (Z.to_nat (Stm32f4.loop_count 250) < Z.to_nat 4000001)%nat).
  { apply Z2Nat.inj_lt; [apply stm32_loop_count_range|lia|reflexivity]. }
  pose proof (delay_requests 250 10 (Z.to_nat 4000001) Posix.boot
                (Esp32.boot Esp32.no_driver_state) (Stm32f4.boot ∅) H1 H2 H3)
    as [[_ [_ Hposix]] [[_ [_ Hesp]] _]].
  split; [|exact Hposix].
  apply Hesp. exists 25. reflexivity.
Defined.

(** C3, as stated, fails on the RTOS backend: with a 10 ms tick, a 5 ms
    delay asks the scheduler for zero ticks. *)
Lemma esp32_delay_shorter_than_asked :
  0 ≤ 5
  ∧ log_of (Esp32.sleep_ms 10 5 (Esp32.boot Esp32.no_driver_state))
    = [Esp32.VTaskDelay 0]
  ∧ ¬ (5 ≤ Esp32.requested_ms 10 5).
Proof.
  split; [lia|]. split; [reflexivity|].
  vm_compute. intros H. apply H. reflexivity.
Qed.

(** ** RTOS/SDK backend on the ESP32 *)

Lemma esp32_gpio_setup_run valid pin s :
  Esp32.gpio_setup valid pin s
  = (tt,
     {| Esp32.led_pin := pin;
        Esp32.drv :=
          (Esp32.drv_gpio_set_level valid pin 0
             (Esp32.drv_gpio_config valid (Esp32.io_conf_of pin) (Esp32.drv s)).2).2 |},
     [Esp32.GpioConfig (Esp32.io_conf_of pin)
        (Esp32.drv_gpio_config valid (Esp32.io_conf_of pin) (Esp32.drv s)).1;
      Esp32.GpioSetLevel pin 0
        (Esp32.drv_gpio_set_level valid pin 0
           (Esp32.drv_gpio_config valid (Esp32.io_conf_of pin) (Esp32.drv s)).2).1]).
Proof.
  unfold Esp32.gpio_setup, Esp32.set_led_pin, Esp32.gpio_config, Esp32.gpio_set_level.
  prog. cbn [Esp32.led_pin Esp32.drv].
  destruct (Esp32.drv_gpio_config valid (Esp32.io_conf_of pin) (Esp32.drv s)) as [r1 d1].
  cbn [Esp32.led_pin Esp32.drv fst snd].
  destruct (Esp32.drv_gpio_set_level valid pin 0 d1) as [r2 d2].
  reflexivity.
Qed.

Lemma esp32_gpio_write_run valid pin value s :
  Esp32.gpio_write valid pin value s
  = (tt,
     {| Esp32.led_pin := Esp32.led_pin s;
        Esp32.drv :=
          (Esp32.drv_gpio_set_level valid (Esp32.led_pin s) (C.cond01 value) (Esp32.drv s)).2 |},
     [Esp32.GpioSetLevel (Esp32.led_pin s) (C.cond01 value)
        (Esp32.drv_gpio_set_level valid (Esp32.led_pin s) (C.cond01 value) (Esp32.drv s)).1]).
Proof.
  unfold Esp32.gpio_write, Esp32.gpio_set_level. prog.
  destruct (Esp32.drv_gpio_set_level valid (Esp32.led_pin s) (C.cond01 value) (Esp32.drv s))
    as [r d].
  reflexivity.
Qed.


Lemma esp32_set_level_accepted valid gpio level d :
  valid gpio = true →
  Esp32.drv_gpio_set_level valid gpio level d
  = (Esp32.ESP_OK,
     {| Esp32.modes := Esp32.modes d;
        Esp32.levels := <[gpio := C.cond01 level]> (Esp32.levels d) |}).
Proof. intros H. unfold Esp32.drv_gpio_set_level. rewrite H. reflexivity. Qed.

Lemma esp32_set_level_rejected valid gpio level d :
  valid gpio = false →
  Esp32.drv_gpio_set_level valid gpio level d = (Esp32.ESP_ERR_INVALID_ARG, d).
Proof. intros H. unfold Esp32.drv_gpio_set_level. rewrite H. reflexivity. Qed.

Lemma cond01_idem v : C.cond01 (C.cond01 v) = C.cond01 v.
Proof. unfold C.cond01, C.truthy. destruct (v =? 0); reflexivity. Qed.

Lemma truthy_cond01 v : C.truthy (C.cond01 v) = C.truthy v.
Proof. unfold C.cond01, C.truthy. destruct (v =? 0); reflexivity. Qed.

(** Setting the mode of the pins of a list. *)
Lemma set_modes_lookup (md : Esp32.gpio_mode_t) (l : list Z) (m : gmap Z Esp32.gpio_mode_t) k :
  foldr (λ i m, <[i := md]> m) m l !! k
  = if decide (k ∈ l) then Some md else m !! k.
Proof.
  induction l as [|i l IH]; cbn [foldr].
  - rewrite decide_False by apply not_elem_of_nil. reflexivity.
  - destruct (decide (i = k)) as [->|Hne].
    + rewrite lookup_insert_eq, decide_True by (apply elem_of_cons; left; reflexivity).
      reflexivity.
    + rewrite lookup_insert_ne by exact Hne. rewrite IH.
      destruct (decide (k ∈ l)) as [Hin|Hnin].
      * rewrite decide_True by (apply elem_of_cons; right; exact Hin). reflexivity.
      * rewrite decide_False; [reflexivity|].
        intros H. apply elem_of_cons in H as [->|H]; [apply Hne; reflexivity|auto].
Qed.

Lemma set_modes_twice (md : Esp32.gpio_mode_t) (l : list Z) (m : gmap Z Esp32.gpio_mode_t) :
  foldr (λ i m, <[i := md]> m) (foldr (λ i m, <[i := md]> m) m l) l
  = foldr (λ i m, <[i := md]> m) m l.
Proof.
  apply map_eq. intros k. rewrite !set_modes_lookup.
  destruct (decide (k ∈ l)); reflexivity.
Qed.

Lemma esp32_gpio_config_twice valid c d :
  Esp32.drv_gpio_config valid c (Esp32.drv_gpio_config valid c d).2
  = Esp32.drv_gpio_config valid c d.
Proof.
  unfold Esp32.drv_gpio_config.
  destruct (_ || _) eqn:Hrej; cbn [snd].
  - reflexivity.
  - cbn [Esp32.modes Esp32.levels]. rewrite set_modes_twice. reflexivity.
Qed.

(** ** Bare-metal backend: the register bus *)

Lemma stm32_addresses :
  Stm32f4.RCC_AHB1ENR = 0x40023830 ∧ Stm32f4.GPIOD_MODER = 0x40020C00
  ∧ Stm32f4.GPIOD_ODR = 0x40020C14 ∧ Stm32f4.GPIOD_BSRR = 0x40020C18.
Proof. repeat split. Qed.

Lemma bus_write_reg addr v r :
  addr ≠ Stm32f4.GPIOD_BSRR → Stm32f4.bus_write addr v r = <[addr := v]> r.
Proof. intros H. unfold Stm32f4.bus_write. rewrite decide_False by exact H. reflexivity. Qed.

Lemma bus_write_bsrr v r :
  Stm32f4.bus_write Stm32f4.GPIOD_BSRR v r
  = <[Stm32f4.GPIOD_ODR := Stm32f4.odr_after (Stm32f4.bus_read Stm32f4.GPIOD_ODR r) v]> r.
Proof. unfold Stm32f4.bus_write. rewrite decide_True by reflexivity. reflexivity. Qed.

Lemma bus_read_insert_eq addr v (r : gmap Z Z) :
  Stm32f4.bus_read addr (<[addr := v]> r) = v.
Proof. unfold Stm32f4.bus_read. rewrite lookup_insert_eq. reflexivity. Qed.

Lemma bus_read_insert_ne addr addr' v (r : gmap Z Z) :
  addr ≠ addr' → Stm32f4.bus_read addr' (<[addr := v]> r) = Stm32f4.bus_read addr' r.
Proof. intros H. unfold Stm32f4.bus_read. rewrite lookup_insert_ne by exact H. reflexivity. Qed.

(** Bitwise equalities, bit by bit. *)
Ltac bitwise :=
  apply Z.bits_inj'; intros ?i ?Hi;
  repeat first [rewrite Z.lor_spec | rewrite Z.land_spec
               | rewrite Z.lnot_spec by assumption];
  repeat match goal with |- context [Z.testbit ?a ?i] =>
    let b := fresh "b" in generalize (Z.testbit a i); intros b
  end;
  repeat match goal with b : bool |- _ => destruct b end; reflexivity.

Lemma lor_again a b : Z.lor (Z.lor a b) b = Z.lor a b.
Proof. bitwise. Qed.

Lemma mask_then_set_again a m b :
  Z.lor (Z.land (Z.lor (Z.land a m) b) m) b = Z.lor (Z.land a m) b.
Proof. bitwise. Qed.

Lemma odr_after_again odr v :
  Stm32f4.odr_after (Stm32f4.odr_after odr v) v = Stm32f4.odr_after odr v.
Proof. unfold Stm32f4.odr_after. bitwise. Qed.

(** A set/reset write of the set bit of pin 12 raises bit 12, one of its
    reset bit lowers it, and neither touches another bit of the port. *)
Lemma odr_after_set12 odr i :
  0 ≤ i →
  Z.testbit (Stm32f4.odr_after odr (Z.shiftl 1 12)) i
  = if i =? 12 then true else Z.testbit odr i.
Proof.
  intros Hi. unfold Stm32f4.odr_after.
  change (Z.land (Z.shiftr (Z.shiftl 1 12) 16) 65535) with 0.
  change (Z.land (Z.shiftl 1 12) 65535) with (2 ^ 12).
  rewrite Z.lor_spec, Z.land_spec, Z.lnot_spec, Z.bits_0 by exact Hi.
  rewrite Z.pow2_bits_eqb by lia. cbn [negb]. rewrite andb_true_r.
  rewrite (Z.eqb_sym 12 i).
  destruct (i =? 12); [apply orb_true_r|apply orb_false_r].
Qed.

Lemma odr_after_reset12 odr i :
  0 ≤ i →
  Z.testbit (Stm32f4.odr_after odr (Z.shiftl 1 (12 + 16))) i
  = if i =? 12 then false else Z.testbit odr i.
Proof.
  intros Hi. unfold Stm32f4.odr_after.
  change (Z.land (Z.shiftr (Z.shiftl 1 (12 + 16)) 16) 65535) with (2 ^ 12).
  change (Z.land (Z.shiftl 1 (12 + 16)) 65535) with 0.
  rewrite Z.lor_spec, Z.land_spec, Z.lnot_spec, Z.bits_0 by exact Hi.
  rewrite Z.pow2_bits_eqb by lia. rewrite orb_false_r.
  rewrite (Z.eqb_sym 12 i).
  destruct (i =? 12); [apply andb_false_r|apply andb_true_r].
Qed.

(** ** Bare-metal backend: [gpio_setup] and [gpio_write] *)

Lemma stm32_gpio_setup_run pin s :
  let rcc := Stm32f4.bus_read Stm32f4.RCC_AHB1ENR (Stm32f4.regs s) in
  let moder := Stm32f4.bus_read Stm32f4.GPIOD_MODER (Stm32f4.regs s) in
  let odr := Stm32f4.bus_read Stm32f4.GPIOD_ODR (Stm32f4.regs s) in
  Stm32f4.gpio_setup pin s
  = (tt,
     {| Stm32f4.led_pin := 12;
        Stm32f4.regs :=
          <[Stm32f4.GPIOD_ODR := Stm32f4.odr_after odr (Z.shiftl 1 (12 + 16))]>
          (<[Stm32f4.GPIOD_MODER := moder_output moder]>
           (<[Stm32f4.GPIOD_MODER := moder_cleared moder]>
            (<[Stm32f4.RCC_AHB1ENR := rcc_enabled rcc]> (Stm32f4.regs s)))) |},
     [Stm32f4.Load Stm32f4.RCC_AHB1ENR rcc;
      Stm32f4.Store Stm32f4.RCC_AHB1ENR (rcc_enabled rcc);
      Stm32f4.Load Stm32f4.GPIOD_MODER moder;
      Stm32f4.Store Stm32f4.GPIOD_MODER (moder_cleared moder);
      Stm32f4.Load Stm32f4.GPIOD_MODER (moder_cleared moder);
      Stm32f4.Store Stm32f4.GPIOD_MODER (moder_output moder);
      Stm32f4.Store Stm32f4.GPIOD_BSRR (Z.shiftl 1 (12 + 16))]).
Proof.
  intros rcc moder odr.
  unfold Stm32f4.gpio_setup, Stm32f4.or_assign, Stm32f4.and_assign,
    Stm32f4.load, Stm32f4.store, Stm32f4.set_led_pin.
  prog. cbn [Stm32f4.led_pin Stm32f4.regs app].
  rewrite !(bus_write_reg Stm32f4.RCC_AHB1ENR) by done.
  rewrite !(bus_write_reg Stm32f4.GPIOD_MODER) by done.
  rewrite bus_write_bsrr.
  rewrite !bus_read_insert_eq.
  rewrite !(bus_read_insert_ne Stm32f4.GPIOD_MODER Stm32f4.GPIOD_ODR) by done.
  rewrite (bus_read_insert_ne Stm32f4.RCC_AHB1ENR Stm32f4.GPIOD_ODR) by done.
  rewrite (bus_read_insert_ne Stm32f4.RCC_AHB1ENR Stm32f4.GPIOD_MODER) by done.
  reflexivity.
Qed.

Lemma stm32_gpio_write_run pin value s :
  let bit := if C.truthy value then Z.shiftl 1 12 else Z.shiftl 1 (12 + 16) in
  Stm32f4.gpio_write pin value s
  = (tt,
     {| Stm32f4.led_pin := Stm32f4.led_pin s;
        Stm32f4.regs :=
          <[Stm32f4.GPIOD_ODR :=
              Stm32f4.odr_after (Stm32f4.bus_read Stm32f4.GPIOD_ODR (Stm32f4.regs s)) bit]>
          (Stm32f4.regs s) |},
     [Stm32f4.Store Stm32f4.GPIOD_BSRR bit]).
Proof.
  unfold Stm32f4.gpio_write, Stm32f4.store.
  destruct (C.truthy value); cbn zeta; rewrite bus_write_bsrr; reflexivity.
Qed.

Lemma stm32_gpio_write_pin12 pin value s :
  Stm32f4.pin12 (state_of (Stm32f4.gpio_write pin value s)) = C.truthy value.
Proof.
  pose proof (stm32_gpio_write_run pin value s) as H. cbn zeta in H. rewrite H.
  unfold Stm32f4.pin12, state_of. cbn [fst snd Stm32f4.regs].
  rewrite bus_read_insert_eq.
  destruct (C.truthy value).
  - rewrite odr_after_set12 by lia. reflexivity.
  - rewrite odr_after_reset12 by lia. reflexivity.
Qed.

Lemma stm32_gpio_setup_pin12 pin s :
  Stm32f4.pin12 (state_of (Stm32f4.gpio_setup pin s)) = false.
Proof.
  pose proof (stm32_gpio_setup_run pin s) as H. cbn zeta in H. rewrite H.
  unfold Stm32f4.pin12, state_of. cbn [fst snd Stm32f4.regs].
  rewrite bus_read_insert_eq, odr_after_reset12 by lia. reflexivity.
Qed.

Lemma rcc_enabled_bit3 rcc : Z.testbit (rcc_enabled rcc) 3 = true.
Proof.
  unfold rcc_enabled. rewrite Z.lor_spec.
  change (Z.testbit (Z.shiftl 1 3) 3) with true. apply orb_true_r.
Qed.

(** The two mode bits of pin 12 end up as 01 (output), the others are kept. *)
Lemma moder_output_bits moder i :
  0 ≤ i < 32 →
  Z.testbit (moder_output moder) i
  = if i =? 24 then true else if i =? 25 then false else Z.testbit moder i.
Proof.
  intros Hi. unfold moder_output, moder_cleared.
  change (C.u32 (Z.lnot (Z.shiftl 3 (12 * 2)))) with (2 ^ 32 - 1 - 2 ^ 24 - 2 ^ 25).
  change (Z.shiftl 1 (12 * 2)) with (2 ^ 24).
  rewrite Z.lor_spec, Z.land_spec, Z.pow2_bits_eqb by lia.
  assert (Hm : Z.testbit (2 ^ 32 - 1 - 2 ^ 24 - 2 ^ 25) i
               = negb ((i =? 24) || (i =? 25))).
  { assert (Hcases : i ∈ seqZ 0 32) by (apply elem_of_seqZ; lia).
    revert Hcases. generalize i.
    apply Forall_forall. vm_compute.
    repeat (constructor; [reflexivity|]). constructor. }
  rewrite Hm, (Z.eqb_sym 24 i).
  destruct (Z.eqb_spec i 24) as [->|]; [apply orb_true_r|].
  destruct (Z.eqb_spec i 25) as [->|]; cbn; [rewrite andb_false_r|rewrite andb_true_r];
    apply orb_false_r.
Qed.

(** C6.  On the bare-metal backend [gpio_setup], for any argument and so for
    12, and from any register contents, stores in this order: the
    clock-enable register with the GPIOD clock bit set, the mode register
    with the two mode bits of pin 12 cleared, the mode register with the
    output mode bit set, the set/reset register with the reset bit of pin
    12; every store to the mode register comes after the clock-enable
    store. *)
Theorem stm32_setup_register_order pin s :
  let rcc := Stm32f4.bus_read Stm32f4.RCC_AHB1ENR (Stm32f4.regs s) in
  let moder := Stm32f4.bus_read Stm32f4.GPIOD_MODER (Stm32f4.regs s) in
  Stm32f4.stores (log_of (Stm32f4.gpio_setup pin s))
  = [(Stm32f4.RCC_AHB1ENR, rcc_enabled rcc);
     (Stm32f4.GPIOD_MODER, moder_cleared moder);
     (Stm32f4.GPIOD_MODER, moder_output moder);
     (Stm32f4.GPIOD_BSRR, Z.shiftl 1 (12 + 16))]
  ∧ Z.testbit (rcc_enabled rcc) 3 = true
  ∧ clock_before_mode false (log_of (Stm32f4.gpio_setup pin s)) = true.
Proof.
  intros rcc moder.
  pose proof (stm32_gpio_setup_run pin s) as H. cbn zeta in H. rewrite H.
  split; [reflexivity|]. split; [apply rcc_enabled_bit3|].
  cbn [log_of snd clock_before_mode].
  repeat (case_decide; try done).
  fold rcc. rewrite rcc_enabled_bit3. reflexivity.
Qed.

(** ** RTOS/SDK backend on the RP2040 *)

Lemma rp2040_gpio_setup_run pin s :
  Rp2040.gpio_setup pin s
  = (tt,
     {| Rp2040.led_pin := pin;
        Rp2040.sdk :=
          PicoSdk.gpio_put (C.u32 pin) false
            (PicoSdk.gpio_set_dir (C.u32 pin) true
               (PicoSdk.gpio_init (C.u32 pin) (Rp2040.sdk s))) |},
     [Rp2040.GpioInit (C.u32 pin); Rp2040.GpioSetDir (C.u32 pin) true;
      Rp2040.GpioPut (C.u32 pin) false]).
Proof. reflexivity. Qed.

Lemma rp2040_gpio_write_run pin value s :
  Rp2040.gpio_write pin value s
  = (tt,
     {| Rp2040.led_pin := Rp2040.led_pin s;
        Rp2040.sdk :=
          PicoSdk.gpio_put (C.u32 (Rp2040.led_pin s)) (C.truthy value) (Rp2040.sdk s) |},
     [Rp2040.GpioPut (C.u32 (Rp2040.led_pin s)) (C.truthy value)]).
Proof.
  unfold Rp2040.gpio_write, Rp2040.gpio_put, Rp2040.sdk_call. prog.
  rewrite truthy_cond01. reflexivity.
Qed.

Lemma pico_setup_twice pin b :
  let once := PicoSdk.gpio_put pin false
                (PicoSdk.gpio_set_dir pin true (PicoSdk.gpio_init pin b)) in
  PicoSdk.gpio_put pin false (PicoSdk.gpio_set_dir pin true (PicoSdk.gpio_init pin once))
  = once.
Proof.
  cbn zeta.
  unfold PicoSdk.gpio_init, PicoSdk.gpio_put, PicoSdk.gpio_set_dir, PicoSdk.gpio_set_function.
  cbn [PicoSdk.funcsel PicoSdk.oe PicoSdk.out].
  rewrite !insert_insert_eq. reflexivity.
Qed.

Lemma esp32_mask_single p :
  0 ≤ p < 64 → Esp32.mask_pins (C.u64 (Z.shiftl 1 p)) = [p].
Proof.
  intros Hp. assert (Hin : p ∈ seqZ 0 64) by (apply elem_of_seqZ; lia).
  revert Hin. generalize p. apply Forall_forall.
  let l := eval vm_compute in (seqZ 0 64) in change (seqZ 0 64) with l.
  repeat (constructor; [vm_compute; reflexivity|]). constructor.
Qed.

Lemma esp32_mask_nonzero p : 0 ≤ p < 64 → C.u64 (Z.shiftl 1 p) ≠ 0.
Proof.
  intros Hp. unfold C.u64. rewrite Z.shiftl_1_l, Z.mod_small.
  - pose proof (Z.pow_pos_nonneg 2 p). lia.
  - split; [apply Z.pow_nonneg; lia|apply Z.pow_lt_mono_r; lia].
Qed.

(** For a pin the driver accepts and a mask can select, [gpio_config] with
    the backend's configuration is accepted and puts the pin, and no other,
    in output mode. *)
Lemma esp32_config_accepted valid p d :
  valid p = true → 0 ≤ p < 64 →
  Esp32.drv_gpio_config valid (Esp32.io_conf_of p) d
  = (Esp32.ESP_OK,
     {| Esp32.modes := <[p := Esp32.GPIO_MODE_OUTPUT]> (Esp32.modes d);
        Esp32.levels := Esp32.levels d |}).
Proof.
  intros Hv Hp. unfold Esp32.drv_gpio_config, Esp32.io_conf_of.
  cbn [Esp32.pin_bit_mask Esp32.mode].
  rewrite esp32_mask_single by exact Hp. cbn [forallb foldr].
  rewrite Hv. cbn [andb negb orb].
  destruct (Z.eqb_spec (C.u64 (Z.shiftl 1 p)) 0) as [H0|_]; [|reflexivity].
  exfalso. exact (esp32_mask_nonzero p Hp H0).
Qed.

(** ** The contract on every backend *)

Section contract_facts.
Variable valid_output : Z → bool.

Lemma configure_stored_pin b p s :
  resolvable valid_output b p →
  stored_pin b (state_of (configure valid_output b p s)) = p.
Proof.
  destruct b; cbn [resolvable configure stored_pin state event]; intros H.
  - reflexivity.
  - rewrite esp32_gpio_setup_run. reflexivity.
  - reflexivity.
  - subst p. pose proof (stm32_gpio_setup_run 12 s) as Hrun. cbn zeta in Hrun.
    rewrite Hrun. reflexivity.
Qed.

Lemma configure_line b p s :
  resolvable valid_output b p →
  line b (state_of (configure valid_output b p s)) = Some false.
Proof.
  destruct b; cbn [resolvable configure line state event]; intros H.
  - reflexivity.
  - rewrite esp32_gpio_setup_run. unfold state_of. cbn [fst snd Esp32.led_pin Esp32.drv].
    rewrite esp32_set_level_accepted by exact H. cbn [snd Esp32.levels].
    rewrite lookup_insert_eq. reflexivity.
  - rewrite rp2040_gpio_setup_run, (u32_small p) by lia. unfold state_of.
    cbn [fst snd Rp2040.led_pin Rp2040.sdk PicoSdk.gpio_put PicoSdk.out].
    rewrite lookup_insert_eq. reflexivity.
  - rewrite stm32_gpio_setup_pin12. reflexivity.
Qed.

Lemma configure_is_output b p s :
  (∀ q, valid_output q = true → 0 ≤ q < 64) →
  resolvable valid_output b p →
  is_output b (state_of (configure valid_output b p s)).
Proof.
  intros Hmask.
  destruct b; cbn [resolvable configure is_output state event]; intros H.
  - exact I.
  - rewrite esp32_gpio_setup_run. unfold state_of. cbn [fst snd Esp32.led_pin Esp32.drv].
    rewrite esp32_config_accepted by (exact H || apply Hmask; exact H).
    cbn [snd]. rewrite esp32_set_level_accepted by exact H.
    cbn [snd Esp32.modes]. apply lookup_insert_eq.
  - rewrite rp2040_gpio_setup_run, (u32_small p) by lia. unfold state_of.
    cbn [fst snd Rp2040.led_pin Rp2040.sdk PicoSdk.gpio_put PicoSdk.gpio_set_dir
         PicoSdk.gpio_init PicoSdk.gpio_set_function PicoSdk.funcsel PicoSdk.oe].
    rewrite !lookup_insert_eq. split; reflexivity.
  - pose proof (stm32_gpio_setup_run p s) as Hrun. cbn zeta in Hrun. rewrite Hrun.
    unfold state_of. cbn [fst snd Stm32f4.regs].
    rewrite !(bus_read_insert_ne Stm32f4.GPIOD_ODR) by done.
    rewrite !(bus_read_insert_ne Stm32f4.GPIOD_MODER Stm32f4.RCC_AHB1ENR) by done.
    rewrite !bus_read_insert_eq.
    split; [apply rcc_enabled_bit3|].
    split; rewrite moder_output_bits by lia; reflexivity.
Qed.

Lemma write_stored_pin b p l s :
  stored_pin b (state_of (write valid_output b p l s)) = stored_pin b s.
Proof.
  destruct b; cbn [write stored_pin state event].
  - apply posix_gpio_write_state.
  - rewrite esp32_gpio_write_run. reflexivity.
  - rewrite rp2040_gpio_write_run. reflexivity.
  - pose proof (stm32_gpio_write_run p l s) as Hrun. cbn zeta in Hrun.
    rewrite Hrun. reflexivity.
Qed.

Lemma write_line b p l s :
  resolvable valid_output b (stored_pin b s) →
  line b (state_of (write valid_output b p l s)) = Some (C.truthy l).
Proof.
  destruct b; cbn [resolvable write line stored_pin state event]; intros H.
  - destruct (posix_gpio_write_state p l s) as [-> _]. reflexivity.
  - rewrite esp32_gpio_write_run. unfold state_of. cbn [fst snd Esp32.led_pin Esp32.drv].
    rewrite esp32_set_level_accepted by exact H. cbn [snd Esp32.levels].
    rewrite lookup_insert_eq. cbn [fmap option_fmap option_map].
    rewrite !truthy_cond01. reflexivity.
  - rewrite rp2040_gpio_write_run, (u32_small (Rp2040.led_pin s)) by lia. unfold state_of.
    cbn [fst snd Rp2040.led_pin Rp2040.sdk PicoSdk.gpio_put PicoSdk.out].
    rewrite lookup_insert_eq. destruct (C.truthy l); reflexivity.
  - rewrite stm32_gpio_write_pin12. reflexivity.
Qed.

Lemma write_all_snoc b ws p l s :
  state_of (write_all valid_output b (ws ++ [(p, l)]) s)
  = state_of (write valid_output b p l (state_of (write_all valid_output b ws s))).
Proof.
  revert s. induction ws as [|[q v] ws IH]; intros s.
  - cbn [app write_all]. rewrite state_of_bind. reflexivity.
  - cbn [app write_all]. rewrite !state_of_bind. apply IH.
Qed.

Lemma write_all_stored_pin b ws s :
  stored_pin b (state_of (write_all valid_output b ws s)) = stored_pin b s.
Proof.
  revert s. induction ws as [|[q v] ws IH]; intros s.
  - reflexivity.
  - cbn [write_all]. rewrite state_of_bind, IH. apply write_stored_pin.
Qed.

End contract_facts.

(** C4.  On every backend, after [configure(p)] for a pin [p] the target
    resolves (the ESP32's drivable pins being pins a 64-bit mask can
    select), the backend has [p] on record, the pin is set up as an output
    and its output is low: the simulated line is 0; the vendor driver holds
    [p] in output mode with level 0 latched; the SDK has [p] on the SIO
    function, output enabled, level 0; the GPIOD clock is on, the mode bits
    of pin 12 read 01 and bit 12 of the port output is 0. *)
Theorem configure_deasserts valid_output b p s :
  (∀ q, valid_output q = true → 0 ≤ q < 64) →
  resolvable valid_output b p →
  stored_pin b (state_of (configure valid_output b p s)) = p
  ∧ line b (state_of (configure valid_output b p s)) = Some false
  ∧ is_output b (state_of (configure valid_output b p s)).
Proof.
  intros Hmask H. split; [|split].
  - apply configure_stored_pin. exact H.
  - apply configure_line. exact H.
  - apply configure_is_output; assumption.
Qed.

Lemma pins_0_33_in_mask q : Esp32.pins_0_33 q = true → 0 ≤ q < 64.
Proof.
  unfold Esp32.pins_0_33. rewrite andb_true_iff, !Z.leb_le. lia.
Qed.

Lemma configure_deasserts_witness :
  line RtosEsp32
    (state_of (configure Esp32.pins_0_33 RtosEsp32 2 (Esp32.boot Esp32.no_driver_state)))
  = Some false
  ∧ is_output RtosEsp32
      (state_of (configure Esp32.pins_0_33 RtosEsp32 2 (Esp32.boot Esp32.no_driver_state))).
Proof.
  assert (H : resolvable Esp32.pins_0_33 RtosEsp32 2) by reflexivity.
  destruct (configure_deasserts Esp32.pins_0_33 RtosEsp32 2
              (Esp32.boot Esp32.no_driver_state) pins_0_33_in_mask H) as (_ & Hl & Ho).
  split; [exact Hl|exact Ho].
Defined.

(** C7.  On every backend whose recorded pin the target resolves, after any
    sequence of [write] calls the output of the pin is the level of the last
    call: high when its value is not zero, low when it is zero; in the
    simulation the recorded state is the very value last written. *)
Theorem last_write_wins valid_output b s ws p l :
  resolvable valid_output b (stored_pin b s) →
  line b (state_of (write_all valid_output b (ws ++ [(p, l)]) s)) = Some (C.truthy l)
  ∧ (∀ sp : Posix.state,
       Posix.g_state (state_of (write_all valid_output Simulation (ws ++ [(p, l)]) sp)) = l).
Proof.
  intros H. split.
  - rewrite write_all_snoc. apply write_line.
    rewrite write_all_stored_pin. exact H.
  - intros sp. rewrite write_all_snoc. apply posix_gpio_write_state.
Qed.

Lemma last_write_wins_witness :
  line BareMetal
    (state_of (write_all Esp32.pins_0_33 BareMetal [(12, 1); (12, 0); (12, 1)]
                 (Stm32f4.boot ∅)))
  = Some true.
Proof.
  apply (last_write_wins Esp32.pins_0_33 BareMetal (Stm32f4.boot ∅)
           [(12, 1); (12, 0)] 12 1).
  reflexivity.
Defined.

Lemma esp32_gpio_setup_twice valid pin s :
  state_of (Esp32.gpio_setup valid pin (state_of (Esp32.gpio_setup valid pin s)))
  = state_of (Esp32.gpio_setup valid pin s).
Proof.
  rewrite !esp32_gpio_setup_run. unfold state_of. cbn [fst snd Esp32.drv].
  f_equal.
  unfold Esp32.drv_gpio_set_level, Esp32.drv_gpio_config.
  destruct (valid pin); destruct (_ || _); cbn [fst snd Esp32.modes Esp32.levels];
    rewrite ?set_modes_twice, ?insert_insert_eq; reflexivity.
Qed.

Lemma stm32_gpio_setup_twice pin s :
  state_of (Stm32f4.gpio_setup pin (state_of (Stm32f4.gpio_setup pin s)))
  = state_of (Stm32f4.gpio_setup pin s).
Proof.
  pose proof (stm32_gpio_setup_run pin) as Hrun. cbn zeta in Hrun.
  rewrite (Hrun (state_of _)). rewrite Hrun.
  unfold state_of. cbn [fst snd Stm32f4.regs]. f_equal.
  rewrite bus_read_insert_eq.
  rewrite !(bus_read_insert_ne Stm32f4.GPIOD_ODR) by done.
  rewrite (bus_read_insert_eq Stm32f4.GPIOD_MODER).
  rewrite !(bus_read_insert_ne Stm32f4.GPIOD_MODER Stm32f4.RCC_AHB1ENR) by done.
  rewrite (bus_read_insert_eq Stm32f4.RCC_AHB1ENR).
  rewrite odr_after_again.
  replace (rcc_enabled (rcc_enabled _)) with
    (rcc_enabled (Stm32f4.bus_read Stm32f4.RCC_AHB1ENR (Stm32f4.regs s)))
    by (unfold rcc_enabled; symmetry; apply lor_again).
  replace (moder_output (moder_output _)) with
    (moder_output (Stm32f4.bus_read Stm32f4.GPIOD_MODER (Stm32f4.regs s)))
    by (unfold moder_output, moder_cleared; symmetry; apply mask_then_set_again).
  apply map_eq. intros k. rewrite !lookup_insert.
  repeat (case_decide; try done).
Qed.

(** C8.  On every backend and for every pin, [configure] run twice leaves
    the backend (its variables, and the driver or registers behind it) in
    the state a single run leaves. *)
Theorem configure_idempotent valid_output b p s :
  state_of ((configure valid_output b p ;;; configure valid_output b p) s)
  = state_of (configure valid_output b p s).
Proof.
  rewrite state_of_bind.
  destruct b; cbn [configure state event].
  - reflexivity.
  - apply esp32_gpio_setup_twice.
  - rewrite !rp2040_gpio_setup_run. unfold state_of. cbn [fst snd Rp2040.sdk].
    f_equal. apply pico_setup_twice.
  - apply stm32_gpio_setup_twice.
Qed.

(** C9.  On every backend [gpio_write] ignores its pin argument: it gives
    the same result whatever pin it is passed, and whatever that pin it
    acts on the pin the backend has on record.  For a recorded pin the
    target resolves, a write addressed to any pin leaves the recorded pin
    on record and sets that pin's line to the level written; in the
    simulation [g_state] becomes the value written and the level line
    carries [g_pin]; the ESP32 and RP2040 backends make one level call for
    [led_pin]; the bare-metal backend stores the set or the reset bit of
    [led_pin], which [gpio_setup] always leaves at 12. *)
Theorem write_ignores_pin_argument valid_output b p q l s :
  resolvable valid_output b (stored_pin b s) →
  write valid_output b p l s = write valid_output b q l s
  ∧ stored_pin b (state_of (write valid_output b p l s)) = stored_pin b s
  ∧ line b (state_of (write valid_output b p l s)) = Some (C.truthy l)
  ∧ (∀ sp,
       Posix.g_state (state_of (Posix.gpio_write p l sp)) = l
       ∧ Posix.g_pin (state_of (Posix.gpio_write p l sp)) = Posix.g_pin sp
       ∧ log_of (Posix.gpio_write p l sp)
         = if l =? Posix.g_state sp then []
           else [Posix.LedLine (Posix.g_pin sp) (C.truthy l)])
  ∧ (∀ se, ∃ r,
       log_of (Esp32.gpio_write valid_output p l se)
       = [Esp32.GpioSetLevel (Esp32.led_pin se) (C.cond01 l) r])
  ∧ (∀ sr,
       log_of (Rp2040.gpio_write p l sr)
       = [Rp2040.GpioPut (C.u32 (Rp2040.led_pin sr)) (C.truthy l)])
  ∧ (∀ p0 s0,
       let sb := state_of (Stm32f4.gpio_setup p0 s0) in
       log_of (Stm32f4.gpio_write p l sb)
       = [Stm32f4.Store Stm32f4.GPIOD_BSRR
            (if C.truthy l then Z.shiftl 1 (Stm32f4.led_pin sb)
             else Z.shiftl 1 (Stm32f4.led_pin sb + 16))]).
Proof.
  intros Hres.
  split; [destruct b; reflexivity|].
  split; [apply write_stored_pin|].
  split; [apply write_line; exact Hres|].
  split.
  { intros sp. destruct (posix_gpio_write_state p l sp) as [Hst Hpin].
    split; [exact Hst|]. split; [exact Hpin|].
    rewrite posix_gpio_write_run.
    destruct (l =? Posix.g_state sp); reflexivity. }
  split.
  { intros se. rewrite esp32_gpio_write_run. eexists. reflexivity. }
  split.
  { intros sr. rewrite rp2040_gpio_write_run. reflexivity. }
  intros p0 s0 sb.
  pose proof (stm32_gpio_write_run p l sb) as Hw. cbn zeta in Hw. rewrite Hw.
  pose proof (stm32_gpio_setup_run p0 s0) as Hs. cbn zeta in Hs.
  assert (Hpin : Stm32f4.led_pin sb = 12) by (subst sb; rewrite Hs; reflexivity).
  rewrite Hpin. destruct (C.truthy l); reflexivity.
Qed.

Lemma write_ignores_pin_argument_witness :
  line Simulation (state_of (write Esp32.pins_0_33 Simulation 99 1 Posix.boot))
  = Some true
  ∧ stored_pin Simulation (state_of (write Esp32.pins_0_33 Simulation 99 1 Posix.boot))
    = 12.
Proof.
  assert (H : resolvable Esp32.pins_0_33 Simulation (stored_pin Simulation Posix.boot))
    by exact I.
  destruct (write_ignores_pin_argument Esp32.pins_0_33 Simulation 99 12 1 Posix.boot H)
    as (_ & Hpin & Hline & _).
  split; [exact Hline|exact Hpin].
Defined.

(** ** Pins the target does not resolve *)

Lemma esp32_config_rejected valid p d :
  valid p = false → 0 ≤ p < 64 →
  Esp32.drv_gpio_config valid (Esp32.io_conf_of p) d = (Esp32.ESP_ERR_INVALID_ARG, d).
Proof.
  intros Hv Hp. unfold Esp32.drv_gpio_config, Esp32.io_conf_of.
  cbn [Esp32.pin_bit_mask].
  rewrite esp32_mask_single by exact Hp. cbn [forallb].
  rewrite Hv. cbn. rewrite orb_true_r. reflexivity.
Qed.

(** C2, as the code has it.  [gpio_setup] has no way to report an error on
    any backend.  For a pin the ESP32's driver does not accept, taken among
    the pins 0 to 63 for which the mask [1ULL<<led_pin] is defined, the
    backend records the pin, calls [gpio_config], then calls
    [gpio_set_level] for the same pin all the same; both calls are refused,
    the driver is left as it was, and [gpio_setup] returns normally.  The
    bare-metal backend does for every pin argument exactly what it does for
    12. *)
Theorem configure_reports_no_error valid_output p se q sb :
  valid_output p = false → 0 ≤ p < 64 →
  Esp32.gpio_setup valid_output p se
  = (tt, {| Esp32.led_pin := p; Esp32.drv := Esp32.drv se |},
     [Esp32.GpioConfig (Esp32.io_conf_of p) Esp32.ESP_ERR_INVALID_ARG;
      Esp32.GpioSetLevel p 0 Esp32.ESP_ERR_INVALID_ARG])
  ∧ Stm32f4.gpio_setup q sb = Stm32f4.gpio_setup 12 sb.
Proof.
  intros Hv Hp. split; [|reflexivity].
  rewrite esp32_gpio_setup_run, esp32_config_rejected by assumption.
  cbn [fst snd]. rewrite esp32_set_level_rejected by exact Hv. reflexivity.
Qed.

Lemma configure_reports_no_error_witness :
  log_of (Esp32.gpio_setup Esp32.pins_0_33 34 (Esp32.boot Esp32.no_driver_state))
  = [Esp32.GpioConfig (Esp32.io_conf_of 34) Esp32.ESP_ERR_INVALID_ARG;
     Esp32.GpioSetLevel 34 0 Esp32.ESP_ERR_INVALID_ARG].
Proof.
  assert (Hv : Esp32.pins_0_33 34 = false) by reflexivity.
  assert (Hp : 0 ≤ 34 < 64) by lia.
  destruct (configure_reports_no_error Esp32.pins_0_33 34
              (Esp32.boot Esp32.no_driver_state) 99 (Stm32f4.boot ∅) Hv Hp) as [-> _].
  reflexivity.
Defined.

(** C2, as stated, fails: on the ESP32 backend, with a driver that accepts
    pins 0 to 33, [gpio_setup(40)] has [gpio_config] refused and goes on to
    call [gpio_set_level] for pin 40, returning as for any other pin; on
    the bare-metal backend [gpio_setup(99)] is [gpio_setup(12)]. *)
Lemma setup_continues_after_rejection :
  Esp32.pins_0_33 40 = false
  ∧ log_of (Esp32.gpio_setup Esp32.pins_0_33 40 (Esp32.boot Esp32.no_driver_state))
    = [Esp32.GpioConfig (Esp32.io_conf_of 40) Esp32.ESP_ERR_INVALID_ARG;
       Esp32.GpioSetLevel 40 0 Esp32.ESP_ERR_INVALID_ARG]
  ∧ continues_after_rejection
      (log_of (Esp32.gpio_setup Esp32.pins_0_33 40 (Esp32.boot Esp32.no_driver_state)))
    = true
  ∧ value_of (Esp32.gpio_setup Esp32.pins_0_33 40 (Esp32.boot Esp32.no_driver_state))
    = value_of (Esp32.gpio_setup Esp32.pins_0_33 2 (Esp32.boot Esp32.no_driver_state))
  ∧ Stm32f4.gpio_setup 99 (Stm32f4.boot ∅) = Stm32f4.gpio_setup 12 (Stm32f4.boot ∅).
Proof. repeat split; vm_compute; reflexivity. Qed.

(** X21.  For a pin the driver accepts and a mask can select, [gpio_setup] leaves
    the pin in output mode with both calls accepted. *)
Lemma esp32_setup_makes_output valid p s :
  valid p = true → 0 ≤ p < 64 →
  Esp32.modes (Esp32.drv (state_of (Esp32.gpio_setup valid p s))) !! p
  = Some Esp32.GPIO_MODE_OUTPUT
  ∧ log_of (Esp32.gpio_setup valid p s)
    = [Esp32.GpioConfig (Esp32.io_conf_of p) Esp32.ESP_OK;
       Esp32.GpioSetLevel p 0 Esp32.ESP_OK].
Proof.
  intros Hv Hp. rewrite esp32_gpio_setup_run.
  assert (Hcfg : Esp32.drv_gpio_config valid (Esp32.io_conf_of p) (Esp32.drv s)
                 = (Esp32.ESP_OK,
                    {| Esp32.modes := <[p := Esp32.GPIO_MODE_OUTPUT]> (Esp32.modes (Esp32.drv s));
                       Esp32.levels := Esp32.levels (Esp32.drv s) |})).
  { unfold Esp32.drv_gpio_config, Esp32.io_conf_of.
    cbn [Esp32.pin_bit_mask Esp32.mode].
    rewrite esp32_mask_single by exact Hp. cbn [forallb foldr].
    rewrite Hv. cbn [andb negb orb].
    destruct (Z.eqb_spec (C.u64 (Z.shiftl 1 p)) 0) as [H0|_]; [|reflexivity].
    exfalso. unfold C.u64 in H0.
    rewrite Z.shiftl_1_l, Z.mod_small in H0.
    - pose proof (Z.pow_pos_nonneg 2 p). lia.
    - split; [apply Z.pow_nonneg; lia|apply Z.pow_lt_mono_r; lia]. }
  rewrite Hcfg. cbn [fst snd].
  rewrite esp32_set_level_accepted by exact Hv.
  unfold state_of, log_of. cbn [fst snd Esp32.drv Esp32.modes].
  rewrite lookup_insert_eq. split; reflexivity.
Qed.

Lemma esp32_setup_makes_output_witness :
  Esp32.modes
    (Esp32.drv (state_of (Esp32.gpio_setup Esp32.pins_0_33 2
                            (Esp32.boot Esp32.no_driver_state)))) !! 2
  = Some Esp32.GPIO_MODE_OUTPUT.
Proof.
  assert (Hv : Esp32.pins_0_33 2 = true) by reflexivity.
  assert (Hp : 0 ≤ 2 < 64) by lia.
  apply (esp32_setup_makes_output Esp32.pins_0_33 2
           (Esp32.boot Esp32.no_driver_state) Hv Hp).
Defined.

(** X22.  On the RP2040, for a pin [p] of the bank (0 to 29), [gpio_setup p]
    leaves pin [p], whatever it was before, routed to the SIO function,
    enabled as an output, and low, having made the three SDK calls for
    [p]. *)
Lemma rp2040_setup_makes_output p s :
  0 ≤ p < 30 →
  let b := Rp2040.sdk (state_of (Rp2040.gpio_setup p s)) in
  PicoSdk.funcsel b !! p = Some PicoSdk.GPIO_FUNC_SIO
  ∧ PicoSdk.oe b !! p = Some true
  ∧ PicoSdk.out b !! p = Some 0
  ∧ log_of (Rp2040.gpio_setup p s)
    = [Rp2040.GpioInit p; Rp2040.GpioSetDir p true; Rp2040.GpioPut p false].
Proof.
  intros Hp. rewrite rp2040_gpio_setup_run, (u32_small p) by lia. unfold state_of.
  cbn [fst snd Rp2040.sdk PicoSdk.gpio_put PicoSdk.gpio_set_dir PicoSdk.gpio_init
       PicoSdk.gpio_set_function PicoSdk.funcsel PicoSdk.oe PicoSdk.out].
  rewrite !lookup_insert_eq. repeat split.
Qed.

Lemma rp2040_setup_makes_output_witness :
  PicoSdk.oe
    (Rp2040.sdk (state_of (Rp2040.gpio_setup 25
       (Rp2040.boot {| PicoSdk.funcsel := ∅; PicoSdk.oe := ∅; PicoSdk.out := ∅ |}))))
    !! 25
  = Some true.
Proof.
  assert (Hp : 0 ≤ 25 < 30) by lia.
  apply (rp2040_setup_makes_output 25
           (Rp2040.boot {| PicoSdk.funcsel := ∅; PicoSdk.oe := ∅; PicoSdk.out := ∅ |}) Hp).
Defined.

(** ** The POSIX driver loop *)

Lemma posix_sleep_requests_app l1 l2 :
  Posix.sleep_requests (l1 ++ l2) = Posix.sleep_requests l1 ++ Posix.sleep_requests l2.
Proof. apply omap_app. Qed.

Lemma posix_gpio_write_no_sleep pin value s :
  Posix.sleep_requests (log_of (Posix.gpio_write pin value s)) = [].
Proof.
  rewrite posix_gpio_write_run. destruct (value =? Posix.g_state s); reflexivity.
Qed.

Lemma posix_blink_sleep_requests fuel period : ∀ s,
  Posix.sleep_requests (log_of (Posix.blink fuel period s))
  = repeat (Posix.timespec_of_ms period) (2 * fuel)
  ∧ value_of (Posix.blink fuel period s) = None.
Proof.
  induction fuel as [|fuel IH]; intros s; [split; reflexivity|].
  cbn [Posix.blink].
  rewrite !value_of_bind, !log_of_bind, !posix_sleep_requests_app.
  rewrite !posix_gpio_write_no_sleep.
  destruct (IH (state_of (Posix.sleep_ms period (state_of (Posix.gpio_write 12 0
              (state_of (Posix.sleep_ms period (state_of (Posix.gpio_write 12 1 s))))))))) as [IHl IHv].
  split; [|exact IHv].
  rewrite IHl. cbn [Posix.sleep_ms emit log_of snd Posix.sleep_requests omap app].
  replace (2 * S fuel)%nat with (S (S (2 * fuel))) by lia. reflexivity.
Qed.

(** C10.  The POSIX [main] hands [atoi(argv[1])] to [sleep_ms] as it is:
    every sleep request of the loop is the [timespec] computed from that
    value, whatever it is, and the loop never returns.  Given ["-250"] the
    period is -250 and each iteration asks [nanosleep] for
    [{0 s, -250000000 ns}], which the host refuses; given ["abc"] the
    period is 0 and each request is for no time at all. *)
Theorem posix_main_forwards_unchecked_period :
  (∀ fuel argv s,
     Posix.sleep_requests (log_of (Posix.main fuel argv s))
     = repeat (Posix.timespec_of_ms (Posix.period_of argv)) (2 * fuel)
     ∧ value_of (Posix.main fuel argv s) = None)
  ∧ (∃ argv,
       Posix.period_of argv < 0
       ∧ Posix.sleep_requests (log_of (Posix.main 1 argv Posix.boot))
         = [ {| Posix.tv_sec := 0; Posix.tv_nsec := -250000000 |};
             {| Posix.tv_sec := 0; Posix.tv_nsec := -250000000 |} ]
       ∧ Posix.timespec_ok (Posix.timespec_of_ms (Posix.period_of argv)) = false)
  ∧ (∃ argv,
       Posix.period_of argv = 0
       ∧ Posix.min_suspension_ns (Posix.timespec_of_ms (Posix.period_of argv)) = 0)
  ∧ Posix.period_of ["runner"%string; "-250"%string] = -250
  ∧ Posix.period_of ["runner"%string; "abc"%string] = 0
  ∧ Posix.period_of ["runner"%string] = 500.
Proof.
  split.
  { intros fuel argv s. unfold Posix.main. cbn zeta.
    rewrite value_of_bind, log_of_bind, posix_sleep_requests_app.
    destruct (posix_blink_sleep_requests fuel (Posix.period_of argv)
                (state_of (Posix.gpio_setup 12 s))) as [Hl Hv].
    rewrite Hl, Hv. split; reflexivity. }
  split.
  { exists ["runner"%string; "-250"%string]. repeat split. }
  split.
  { exists ["runner"%string; "abc"%string]. repeat split. }
  repeat split.
Qed.

(** * Further properties of the backends *)

(** ** Simulation: traces of write sequences and of the driver loop *)

(** X1.  The level lines of any sequence of writes are the values that differ
    from the one recorded before them, each tagged with the recorded pin;
    after [gpio_setup p] the tag is [p] and the comparison starts from 0,
    whatever the state was before. *)
Theorem posix_trace_is_value_changes valid_output (ws : list (Z * Z)) :
  (∀ s : Posix.state,
     Posix.transitions (log_of (write_all valid_output Simulation ws s))
     = map (λ v, Posix.LedLine (Posix.g_pin s) (C.truthy v))
           (value_changes (Posix.g_state s) ws.*2))
  ∧ (∀ p (s : Posix.state),
       Posix.transitions
         (log_of ((Posix.gpio_setup p ;;; write_all valid_output Simulation ws) s))
       = map (λ v, Posix.LedLine p (C.truthy v)) (value_changes 0 ws.*2)).
Proof.
  assert (Hgen : ∀ s : Posix.state,
     Posix.transitions (log_of (write_all valid_output Simulation ws s))
     = map (λ v, Posix.LedLine (Posix.g_pin s) (C.truthy v))
           (value_changes (Posix.g_state s) ws.*2)).
  { induction ws as [|[q v] ws IH]; intros s; [reflexivity|].
    cbn [write_all write fmap list_fmap snd value_changes state event] in IH |- *.
    rewrite log_of_bind, posix_transitions_app, posix_gpio_write_transitions.
    rewrite (IH (state_of (Posix.gpio_write q v s))).
    rewrite posix_gpio_write_run.
    destruct (v =? Posix.g_state s); reflexivity. }
  split; [exact Hgen|].
  intros p s. cbn [state event] in Hgen |- *.
  rewrite log_of_bind, posix_transitions_app.
  rewrite (Hgen (state_of (Posix.gpio_setup p s))). reflexivity.
Qed.

Lemma posix_blink_log fuel period : ∀ s,
  Posix.g_pin s = 12 → Posix.g_state s = 0 →
  Posix.blink fuel period s
  = (None, s,
     concat (repeat [Posix.LedLine 12 true; Posix.Nanosleep (Posix.timespec_of_ms period);
                     Posix.LedLine 12 false; Posix.Nanosleep (Posix.timespec_of_ms period)]
               fuel)).
Proof.
  induction fuel as [|fuel IH]; intros [pin st] Hpin Hst; cbn in Hpin, Hst; subst.
  - reflexivity.
  - cbn [Posix.blink repeat concat].
    unfold bind at 1. cbn.
    specialize (IH {| Posix.g_pin := 12; Posix.g_state := 0 |} eq_refl eq_refl).
    unfold Posix.sleep_ms, emit, bind. cbn. rewrite IH. reflexivity.
Qed.

(** X2.  The whole trace of the POSIX [main], for every argument vector, every
    number of loop iterations and every starting state: the setup line for
    pin 12, then for each iteration ON, a sleep request, OFF, a sleep
    request, both requests computed from the period; the loop never
    returns and leaves pin 12 recorded as off. *)
Theorem posix_main_trace fuel argv s :
  Posix.main fuel argv s
  = (None, {| Posix.g_pin := 12; Posix.g_state := 0 |},
     Posix.SetupLine 12
     :: concat (repeat
          [Posix.LedLine 12 true;
           Posix.Nanosleep (Posix.timespec_of_ms (Posix.period_of argv));
           Posix.LedLine 12 false;
           Posix.Nanosleep (Posix.timespec_of_ms (Posix.period_of argv))]
          fuel)).
Proof.
  unfold Posix.main. cbn zeta. rewrite bind_run.
  rewrite posix_gpio_setup_run.
  cbn [value_of state_of log_of fst snd].
  rewrite posix_blink_log by reflexivity. reflexivity.
Qed.

(** X3.  A negative duration always gives [nanosleep] a request it refuses (a
    negative field), so the call does not suspend at all; the two fields
    still add up to the duration. *)
Theorem posix_negative_duration ms s :
  ms < 0 →
  log_of (Posix.sleep_ms ms s) = [Posix.Nanosleep (Posix.timespec_of_ms ms)]
  ∧ Posix.timespec_ok (Posix.timespec_of_ms ms) = false
  ∧ Posix.min_suspension_ns (Posix.timespec_of_ms ms) = 0
  ∧ Posix.tv_sec (Posix.timespec_of_ms ms) * 1000000000
    + Posix.tv_nsec (Posix.timespec_of_ms ms) = ms * 1000000.
Proof.
  intros Hms.
  pose proof (Z.quot_rem' ms 1000) as Hqr.
  assert (Hq : ms ÷ 1000 ≤ 0) by (apply Z.quot_le_upper_bound; lia).
  assert (Hr : Z.rem ms 1000 ≤ 0) by (apply Z.rem_nonpos; lia).
  assert (Hok : Posix.timespec_ok (Posix.timespec_of_ms ms) = false).
  { unfold Posix.timespec_ok, Posix.timespec_of_ms. cbn [Posix.tv_sec Posix.tv_nsec].
    destruct (Z.leb_spec 0 (ms ÷ 1000)); [|reflexivity].
    destruct (Z.leb_spec 0 (Z.rem ms 1000 * 1000000)); [|reflexivity].
    lia. }
  split; [reflexivity|]. split; [exact Hok|]. split.
  - unfold Posix.min_suspension_ns. rewrite Hok. reflexivity.
  - unfold Posix.timespec_of_ms. cbn [Posix.tv_sec Posix.tv_nsec]. lia.
Qed.

Lemma posix_negative_duration_witness :
  Posix.timespec_ok (Posix.timespec_of_ms (-1000)) = false.
Proof.
  apply (posix_negative_duration (-1000) Posix.boot). lia.
Defined.

(** ** RTOS backend: what the tick conversion does *)

(** X4.  A delay asks for no tick at all exactly when it is shorter than one
    tick period. *)
Theorem esp32_zero_ticks_iff_sub_tick period d s :
  0 < period → 0 ≤ d < 2 ^ 31 →
  (Esp32.ticks_of_ms period d = 0 ↔ d < period)
  ∧ (d < period → log_of (Esp32.sleep_ms period d s) = [Esp32.VTaskDelay 0]).
Proof.
  intros Hp Hd. rewrite esp32_ticks_of_ms by exact Hd.
  assert (Hiff : d / period = 0 ↔ d < period).
  { rewrite Z.div_small_iff by lia. lia. }
  split; [exact Hiff|].
  intros Hlt. unfold Esp32.sleep_ms, Esp32.vTaskDelay. cbn [emit log_of snd].
  rewrite esp32_ticks_of_ms by exact Hd. apply Hiff in Hlt. rewrite Hlt. reflexivity.
Qed.

Lemma esp32_zero_ticks_iff_sub_tick_witness :
  Esp32.ticks_of_ms 10 9 = 0.
Proof.
  assert (Hp : 0 < 10) by lia.
  assert (Hd : 0 ≤ 9 < 2 ^ 31) by lia.
  apply (esp32_zero_ticks_iff_sub_tick 10 9 (Esp32.boot Esp32.no_driver_state) Hp Hd).
  lia.
Defined.

(** X5.  Longer delays never ask for fewer ticks, and a delay cut in two asks for
    no more time than the whole and at most one tick period less. *)
Theorem esp32_delay_split period a b :
  0 < period → 0 ≤ a → 0 ≤ b → a + b < 2 ^ 31 →
  Esp32.ticks_of_ms period a ≤ Esp32.ticks_of_ms period (a + b)
  ∧ Esp32.requested_ms period a + Esp32.requested_ms period b
    ≤ Esp32.requested_ms period (a + b)
  ∧ Esp32.requested_ms period (a + b)
    ≤ Esp32.requested_ms period a + Esp32.requested_ms period b + period.
Proof.
  intros Hp Ha Hb Hab. unfold Esp32.requested_ms.
  rewrite !esp32_ticks_of_ms by lia.
  pose proof (Z.div_mod a period ltac:(lia)) as Ea.
  pose proof (Z.div_mod b period ltac:(lia)) as Eb.
  pose proof (Z.div_mod (a + b) period ltac:(lia)) as Eab.
  pose proof (Z.mod_pos_bound a period Hp) as Ma.
  pose proof (Z.mod_pos_bound b period Hp) as Mb.
  pose proof (Z.mod_pos_bound (a + b) period Hp) as Mab.
  split; [apply Z.div_le_mono; lia|].
  assert (Hlo : a / period + b / period ≤ (a + b) / period).
  { apply Z.div_le_lower_bound; [lia|]. nia. }
  assert (Hhi : (a + b) / period ≤ a / period + b / period + 1).
  { assert ((a + b) / period < a / period + b / period + 2); [|lia].
    apply Z.div_lt_upper_bound; [lia|]. nia. }
  split; nia.
Qed.

Lemma esp32_delay_split_witness :
  Esp32.requested_ms 10 15 + Esp32.requested_ms 10 15 ≤ Esp32.requested_ms 10 30.
Proof.
  apply (esp32_delay_split 10 15 15); lia.
Defined.

(** X6.  A negative duration is converted to unsigned before the division: the
    backend asks for [(2^32 + ms) / portTICK_PERIOD_MS] ticks, more than
    [2^31] milliseconds less one tick period. *)
Theorem esp32_negative_duration period ms s :
  0 < period → - 2 ^ 31 ≤ ms < 0 →
  log_of (Esp32.sleep_ms period ms s) = [Esp32.VTaskDelay ((2 ^ 32 + ms) / period)]
  ∧ 2 ^ 31 - period < Esp32.requested_ms period ms.
Proof.
  intros Hp Hms.
  assert (Ht : Esp32.ticks_of_ms period ms = (2 ^ 32 + ms) / period).
  { unfold Esp32.ticks_of_ms, C.u32. f_equal.
    symmetry. apply (Z.mod_unique ms (2 ^ 32) (-1)); lia. }
  split.
  - unfold Esp32.sleep_ms, Esp32.vTaskDelay. cbn [emit log_of snd]. rewrite Ht. reflexivity.
  - unfold Esp32.requested_ms. rewrite Ht.
    pose proof (Z.div_mod (2 ^ 32 + ms) period ltac:(lia)).
    pose proof (Z.mod_pos_bound (2 ^ 32 + ms) period Hp). lia.
Qed.

Lemma esp32_negative_duration_witness :
  log_of (Esp32.sleep_ms 10 (-1) (Esp32.boot Esp32.no_driver_state))
  = [Esp32.VTaskDelay ((2 ^ 32 + -1) / 10)].
Proof.
  apply (esp32_negative_duration 10 (-1)); lia.
Defined.

(** ** Bare-metal backend: the busy-wait counter *)

(** X7.  The loop does not return before its counter has run out: with fuel for
    no more iterations than the counter, the run has executed one [nop] per
    unit of fuel and has not returned. *)
Theorem stm32_busy_wait_not_before_count fuel : ∀ n s,
  0 ≤ n < 2 ^ 32 → (fuel ≤ Z.to_nat n)%nat →
  Stm32f4.busy_wait fuel n s = (None, s, repeat Stm32f4.Nop fuel).
Proof.
  induction fuel as [|fuel IH]; intros n s Hn Hfuel; [reflexivity|].
  cbn [Stm32f4.busy_wait]. unfold C.truthy.
  destruct (Z.eqb_spec n 0) as [->|Hne]; [cbn in Hfuel; lia|]. cbn [negb].
  rewrite bind_run. cbn [emit value_of state_of log_of fst snd].
  rewrite u32_small by lia. rewrite IH by lia. reflexivity.
Qed.

Lemma stm32_busy_wait_not_before_count_witness :
  Stm32f4.busy_wait 2 3 (Stm32f4.boot ∅)
  = (None, Stm32f4.boot ∅, [Stm32f4.Nop; Stm32f4.Nop]).
Proof.
  apply (stm32_busy_wait_not_before_count 2 3 (Stm32f4.boot ∅)); [lia|].
  vm_compute. repeat constructor.
Defined.

(** X8.  The counter is a 32-bit product: from 268436 ms on it wraps, and the
    loop runs fewer than [ms * 16000] iterations. *)
Theorem stm32_delay_wraps ms :
  268436 ≤ ms < 2 ^ 31 →
  Stm32f4.loop_count ms = ms * 16000 mod 2 ^ 32
  ∧ Stm32f4.loop_count ms < 2 ^ 32 ≤ ms * 16000.
Proof.
  intros Hms. unfold Stm32f4.loop_count. rewrite (u32_small ms) by lia.
  unfold C.u32. pose proof (Z.mod_pos_bound (ms * 16000) (2 ^ 32) ltac:(lia)).
  split; [reflexivity|]. lia.
Qed.

Lemma stm32_delay_wraps_witness :
  Stm32f4.loop_count 268436 < 2 ^ 32 ≤ 268436 * 16000.
Proof.
  apply (stm32_delay_wraps 268436). lia.
Defined.

(** X9.  A negative duration is converted to unsigned: down to -268435 ms the
    loop runs [2^32 + ms * 16000] iterations, the longer the closer [ms] is
    to zero. *)
Theorem stm32_negative_duration ms :
  -268435 ≤ ms < 0 →
  Stm32f4.loop_count ms = 2 ^ 32 + ms * 16000.
Proof.
  intros Hms. unfold Stm32f4.loop_count, C.u32.
  rewrite Z.mul_mod_idemp_l by lia.
  symmetry. apply (Z.mod_unique (ms * 16000) (2 ^ 32) (-1)); lia.
Qed.

Lemma stm32_negative_duration_witness :
  Stm32f4.loop_count (-1) = 2 ^ 32 + -1 * 16000.
Proof.
  apply (stm32_negative_duration (-1)). lia.
Defined.

(** ** Bare-metal backend: what the register accesses leave alone *)

Lemma rcc_enabled_bits rcc i :
  0 ≤ i → Z.testbit (rcc_enabled rcc) i = if i =? 3 then true else Z.testbit rcc i.
Proof.
  intros Hi. unfold rcc_enabled. change (Z.shiftl 1 3) with (2 ^ 3).
  rewrite Z.lor_spec, Z.pow2_bits_eqb, (Z.eqb_sym 3 i) by lia.
  destruct (i =? 3); [apply orb_true_r|apply orb_false_r].
Qed.

(** X10.  [gpio_setup] changes bit 3 of the clock-enable register, the two mode
    bits of pin 12 and bit 12 of the port output, and nothing else: every
    other bit of these three registers and every other register keeps its
    value. *)
Theorem stm32_setup_frame pin s i addr :
  0 ≤ i < 32 →
  addr ≠ Stm32f4.RCC_AHB1ENR → addr ≠ Stm32f4.GPIOD_MODER → addr ≠ Stm32f4.GPIOD_ODR →
  let r := Stm32f4.regs s in
  let r' := Stm32f4.regs (state_of (Stm32f4.gpio_setup pin s)) in
  Z.testbit (Stm32f4.bus_read Stm32f4.RCC_AHB1ENR r') i
  = (if i =? 3 then true else Z.testbit (Stm32f4.bus_read Stm32f4.RCC_AHB1ENR r) i)
  ∧ Z.testbit (Stm32f4.bus_read Stm32f4.GPIOD_MODER r') i
    = (if i =? 24 then true else if i =? 25 then false
       else Z.testbit (Stm32f4.bus_read Stm32f4.GPIOD_MODER r) i)
  ∧ Z.testbit (Stm32f4.bus_read Stm32f4.GPIOD_ODR r') i
    = (if i =? 12 then false else Z.testbit (Stm32f4.bus_read Stm32f4.GPIOD_ODR r) i)
  ∧ r' !! addr = r !! addr.
Proof.
  intros Hi Hrcc Hmoder Hodr r r'. subst r r'.
  pose proof (stm32_gpio_setup_run pin s) as Hrun. cbn zeta in Hrun. rewrite Hrun.
  unfold state_of. cbn [fst snd Stm32f4.regs].
  split; [|split; [|split]].
  - rewrite !(bus_read_insert_ne _ Stm32f4.RCC_AHB1ENR) by done.
    rewrite bus_read_insert_eq. apply rcc_enabled_bits. lia.
  - rewrite (bus_read_insert_ne _ Stm32f4.GPIOD_MODER) by done.
    rewrite bus_read_insert_eq. apply moder_output_bits. exact Hi.
  - rewrite bus_read_insert_eq. apply odr_after_reset12. lia.
  - rewrite !lookup_insert_ne by done. reflexivity.
Qed.

Lemma stm32_setup_frame_witness :
  Z.testbit (Stm32f4.bus_read Stm32f4.GPIOD_MODER
     (Stm32f4.regs (state_of (Stm32f4.gpio_setup 12
        (Stm32f4.boot {[Stm32f4.GPIOD_MODER := 0xA8000000]}))))) 27
  = true.
Proof.
  assert (Hi : 0 ≤ 27 < 32) by lia.
  assert (H1 : Stm32f4.GPIOD_BSRR ≠ Stm32f4.RCC_AHB1ENR) by done.
  assert (H2 : Stm32f4.GPIOD_BSRR ≠ Stm32f4.GPIOD_MODER) by done.
  assert (H3 : Stm32f4.GPIOD_BSRR ≠ Stm32f4.GPIOD_ODR) by done.
  pose proof (stm32_setup_frame 12 (Stm32f4.boot {[Stm32f4.GPIOD_MODER := 0xA8000000]})
                27 Stm32f4.GPIOD_BSRR Hi H1 H2 H3) as [_ [H _]].
  cbn zeta in H. rewrite H. reflexivity.
Defined.

Lemma stm32_gpio_write_frame p v s i addr :
  0 ≤ i → i ≠ 12 → addr ≠ Stm32f4.GPIOD_ODR →
  let s' := state_of (Stm32f4.gpio_write p v s) in
  Z.testbit (Stm32f4.bus_read Stm32f4.GPIOD_ODR (Stm32f4.regs s')) i
  = Z.testbit (Stm32f4.bus_read Stm32f4.GPIOD_ODR (Stm32f4.regs s)) i
  ∧ Stm32f4.regs s' !! addr = Stm32f4.regs s !! addr.
Proof.
  intros Hi Hne Haddr s'. subst s'.
  pose proof (stm32_gpio_write_run p v s) as Hrun. cbn zeta in Hrun. rewrite Hrun.
  unfold state_of. cbn [fst snd Stm32f4.regs].
  rewrite bus_read_insert_eq, lookup_insert_ne by done.
  split; [|reflexivity].
  destruct (C.truthy v).
  - rewrite odr_after_set12 by lia.
    destruct (Z.eqb_spec i 12); [contradiction|reflexivity].
  - rewrite odr_after_reset12 by lia.
    destruct (Z.eqb_spec i 12); [contradiction|reflexivity].
Qed.

(** X11.  No sequence of [gpio_write] calls, whatever pins and values it is
    given, reads a register, stores anywhere but to the set/reset register,
    changes a bit of the port output other than bit 12, or changes any
    other register. *)
Theorem stm32_writes_frame valid_output (ws : list (Z * Z)) (s : Stm32f4.state) i addr :
  0 ≤ i → i ≠ 12 → addr ≠ Stm32f4.GPIOD_ODR →
  let run := write_all valid_output BareMetal ws s in
  Z.testbit (Stm32f4.bus_read Stm32f4.GPIOD_ODR (Stm32f4.regs (state_of run))) i
  = Z.testbit (Stm32f4.bus_read Stm32f4.GPIOD_ODR (Stm32f4.regs s)) i
  ∧ Stm32f4.regs (state_of run) !! addr = Stm32f4.regs s !! addr
  ∧ Stm32f4.loads (log_of run) = []
  ∧ (Stm32f4.stores (log_of run)).*1 = repeat Stm32f4.GPIOD_BSRR (length ws).
Proof.
  intros Hi Hne Haddr run. subst run. revert s.
  induction ws as [|[p v] ws IH]; intros s.
  - repeat split.
  - cbn [write_all write state event length repeat] in IH |- *.
    rewrite state_of_bind, log_of_bind.
    destruct (IH (state_of (Stm32f4.gpio_write p v s))) as (IH1 & IH2 & IH3 & IH4).
    destruct (stm32_gpio_write_frame p v s i addr Hi Hne Haddr) as [F1 F2].
    cbn zeta in F1, F2.
    split; [rewrite IH1; exact F1|].
    split; [rewrite IH2; exact F2|].
    pose proof (stm32_gpio_write_run p v s) as Hrun. cbn zeta in Hrun.
    unfold Stm32f4.loads, Stm32f4.stores in *.
    rewrite !omap_app, fmap_app, IH3, IH4, Hrun.
    split; reflexivity.
Qed.

Lemma stm32_writes_frame_witness :
  Stm32f4.loads
    (log_of (write_all Esp32.pins_0_33 BareMetal [(12, 1); (3, 0)] (Stm32f4.boot ∅)))
  = [].
Proof.
  assert (Hi : 0 ≤ 5) by lia.
  assert (Hne : 5 ≠ 12) by lia.
  assert (Ha : Stm32f4.GPIOD_MODER ≠ Stm32f4.GPIOD_ODR) by done.
  apply (stm32_writes_frame Esp32.pins_0_33 [(12, 1); (3, 0)] (Stm32f4.boot ∅)
           5 Stm32f4.GPIOD_MODER Hi Hne Ha).
Defined.

(** ** Writes on every backend *)


Lemma truthy_nonzero v : v ≠ 0 → C.truthy v = true.
Proof. intros H. unfold C.truthy. destruct (Z.eqb_spec v 0); [contradiction|reflexivity]. Qed.

(** X13.  On the three hardware backends every non-zero value is the same write
    as 1: same state, same driver call or register store. *)
Theorem hardware_write_nonzero_is_one valid_output p v se sr sb :
  v ≠ 0 →
  Esp32.gpio_write valid_output p v se = Esp32.gpio_write valid_output p 1 se
  ∧ Rp2040.gpio_write p v sr = Rp2040.gpio_write p 1 sr
  ∧ Stm32f4.gpio_write p v sb = Stm32f4.gpio_write p 1 sb.
Proof.
  intros Hv. pose proof (truthy_nonzero v Hv) as Ht.
  split; [|split].
  - rewrite !esp32_gpio_write_run. unfold C.cond01. rewrite Ht. reflexivity.
  - rewrite !rp2040_gpio_write_run, Ht. reflexivity.
  - unfold Stm32f4.gpio_write. rewrite Ht. reflexivity.
Qed.

Lemma hardware_write_nonzero_is_one_witness :
  Stm32f4.gpio_write 12 (-7) (Stm32f4.boot ∅) = Stm32f4.gpio_write 12 1 (Stm32f4.boot ∅).
Proof.
  apply (hardware_write_nonzero_is_one Esp32.pins_0_33 12 (-7)
           (Esp32.boot Esp32.no_driver_state)
           (Rp2040.boot {| PicoSdk.funcsel := ∅; PicoSdk.oe := ∅; PicoSdk.out := ∅ |})
           (Stm32f4.boot ∅)).
  lia.
Defined.

(** ** RTOS/SDK backends: pins the calls leave alone *)

(** X14.  When the recorded pin is one the driver refuses, [gpio_write] makes the
    level call, has it refused, and leaves everything as it was. *)
Theorem esp32_write_refused_pin valid_output p v s :
  valid_output (Esp32.led_pin s) = false →
  Esp32.gpio_write valid_output p v s
  = (tt, s,
     [Esp32.GpioSetLevel (Esp32.led_pin s) (C.cond01 v) Esp32.ESP_ERR_INVALID_ARG]).
Proof.
  intros Hv. rewrite esp32_gpio_write_run, esp32_set_level_rejected by exact Hv.
  destruct s; reflexivity.
Qed.

Lemma esp32_write_refused_pin_witness :
  state_of (Esp32.gpio_write Esp32.pins_0_33 2 1
              {| Esp32.led_pin := 40; Esp32.drv := Esp32.no_driver_state |})
  = {| Esp32.led_pin := 40; Esp32.drv := Esp32.no_driver_state |}.
Proof.
  rewrite (esp32_write_refused_pin Esp32.pins_0_33 2 1
             {| Esp32.led_pin := 40; Esp32.drv := Esp32.no_driver_state |});
    reflexivity.
Defined.






(** X17.  Configuring a second pin does not release the first: for two
    different pins [p] and [q] of the bank (0 to 29), after
    [gpio_setup p; gpio_setup q] the backend records [q], pin [p] is still
    an output held low, and a following [gpio_write] no longer reaches
    it. *)
Theorem rp2040_reconfigure_keeps_old_pin p q w v s :
  0 ≤ p < 30 → 0 ≤ q < 30 → p ≠ q →
  let s2 := state_of ((Rp2040.gpio_setup p ;;; Rp2040.gpio_setup q) s) in
  let s3 := state_of (Rp2040.gpio_write w v s2) in
  Rp2040.led_pin s2 = q
  ∧ PicoSdk.funcsel (Rp2040.sdk s2) !! p = Some PicoSdk.GPIO_FUNC_SIO
  ∧ PicoSdk.oe (Rp2040.sdk s2) !! p = Some true
  ∧ PicoSdk.out (Rp2040.sdk s2) !! p = Some 0
  ∧ PicoSdk.out (Rp2040.sdk s3) !! p = Some 0
  ∧ PicoSdk.out (Rp2040.sdk s3) !! q = Some (C.cond01 v).
Proof.
  intros Hpr Hqr Hpq s2 s3. subst s2 s3.
  rewrite state_of_bind, rp2040_gpio_write_run, !rp2040_gpio_setup_run.
  unfold state_of. cbn [fst snd Rp2040.led_pin].
  rewrite (u32_small p), (u32_small q) by lia.
  cbn [fst snd Rp2040.sdk Rp2040.led_pin PicoSdk.gpio_put PicoSdk.gpio_set_dir
       PicoSdk.gpio_init PicoSdk.gpio_set_function PicoSdk.funcsel PicoSdk.oe PicoSdk.out].
  assert (Hqp : q ≠ p) by (intros E; apply Hpq; symmetry; exact E).
  rewrite !(lookup_insert_ne _ q p) by exact Hqp.
  rewrite !lookup_insert_eq.
  unfold C.cond01. destruct (C.truthy v); repeat split.
Qed.

Lemma rp2040_reconfigure_keeps_old_pin_witness :
  PicoSdk.oe
    (Rp2040.sdk (state_of ((Rp2040.gpio_setup 25 ;;; Rp2040.gpio_setup 16)
       (Rp2040.boot {| PicoSdk.funcsel := ∅; PicoSdk.oe := ∅; PicoSdk.out := ∅ |}))))
    !! 25
  = Some true.
Proof.
  assert (Hp : 0 ≤ 25 < 30) by lia.
  assert (Hq : 0 ≤ 16 < 30) by lia.
  assert (H : 25 ≠ 16) by lia.
  apply (rp2040_reconfigure_keeps_old_pin 25 16 16 1
           (Rp2040.boot {| PicoSdk.funcsel := ∅; PicoSdk.oe := ∅; PicoSdk.out := ∅ |})
           Hp Hq H).
Defined.

(** ** The driver loops of the ESP32 and STM32F4 images *)

Lemma esp32_blink_run valid period fuel : ∀ s,
  valid (Esp32.led_pin s) = true →
  let p := Esp32.led_pin s in
  let t := 500 / period in
  Esp32.levels (Esp32.drv s) !! p = Some 0 →
  Esp32.blink valid period fuel s
  = (None, s,
     concat (repeat [Esp32.GpioSetLevel p 1 Esp32.ESP_OK; Esp32.VTaskDelay t;
                     Esp32.GpioSetLevel p 0 Esp32.ESP_OK; Esp32.VTaskDelay t] fuel)).
Proof.
  induction fuel as [|fuel IH]; intros s Hv p t Hlow; [reflexivity|].
  cbn [Esp32.blink repeat concat].
  unfold bind at 1. cbn [get].
  unfold bind at 1. rewrite esp32_gpio_write_run, esp32_set_level_accepted by exact Hv.
  cbn [fst snd].
  unfold bind at 1. unfold Esp32.sleep_ms at 1, Esp32.vTaskDelay, emit.
  unfold bind at 1. cbn [get].
  unfold bind at 1. rewrite esp32_gpio_write_run. cbn [Esp32.led_pin Esp32.drv].
  rewrite esp32_set_level_accepted by exact Hv. cbn [fst snd Esp32.modes Esp32.levels].
  unfold bind at 1. unfold Esp32.sleep_ms at 1, Esp32.vTaskDelay, emit.
  rewrite insert_insert_eq.
  change (C.cond01 (C.cond01 0)) with 0. change (C.cond01 (C.cond01 1)) with 1.
  change (C.cond01 0) with 0. change (C.cond01 1) with 1.
  rewrite (insert_id (Esp32.levels (Esp32.drv s)) (Esp32.led_pin s) 0) by exact Hlow.
  replace {| Esp32.led_pin := Esp32.led_pin s;
             Esp32.drv := {| Esp32.modes := Esp32.modes (Esp32.drv s);
                             Esp32.levels := Esp32.levels (Esp32.drv s) |} |}
    with s by (destruct s as [? []]; reflexivity).
  rewrite (IH s Hv Hlow).
  unfold Esp32.ticks_of_ms. change (C.u32 500) with 500. reflexivity.
Qed.

(** X19.  The ESP32 [app_main], started with a recorded pin the driver accepts:
    it configures that pin, then each iteration sets it high, asks for
    [500 / portTICK_PERIOD_MS] ticks, sets it low and asks for the same
    ticks again, every level call being accepted; it never returns and
    leaves the pin low. *)
Theorem esp32_app_main_trace valid_output period fuel s :
  valid_output (Esp32.led_pin s) = true → 0 < period →
  let p := Esp32.led_pin s in
  let r := Esp32.app_main valid_output period fuel s in
  value_of r = None
  ∧ log_of r
    = [Esp32.GpioConfig (Esp32.io_conf_of p)
         (Esp32.drv_gpio_config valid_output (Esp32.io_conf_of p) (Esp32.drv s)).1;
       Esp32.GpioSetLevel p 0 Esp32.ESP_OK]
      ++ concat (repeat [Esp32.GpioSetLevel p 1 Esp32.ESP_OK;
                         Esp32.VTaskDelay (500 / period);
                         Esp32.GpioSetLevel p 0 Esp32.ESP_OK;
                         Esp32.VTaskDelay (500 / period)] fuel)
  ∧ Esp32.levels (Esp32.drv (state_of r)) !! p = Some 0.
Proof.
  intros Hv Hperiod p r. subst p r.
  set (s1 := {| Esp32.led_pin := Esp32.led_pin s;
                Esp32.drv :=
                  {| Esp32.modes :=
                       Esp32.modes (Esp32.drv_gpio_config valid_output
                                      (Esp32.io_conf_of (Esp32.led_pin s)) (Esp32.drv s)).2;
                     Esp32.levels :=
                       <[Esp32.led_pin s := 0]>
                         (Esp32.levels (Esp32.drv_gpio_config valid_output
                                          (Esp32.io_conf_of (Esp32.led_pin s)) (Esp32.drv s)).2) |} |}).
  assert (Hlow : Esp32.levels (Esp32.drv s1) !! Esp32.led_pin s1 = Some 0)
    by apply lookup_insert_eq.
  assert (Hrun : Esp32.app_main valid_output period fuel s
    = (None, s1,
       [Esp32.GpioConfig (Esp32.io_conf_of (Esp32.led_pin s))
          (Esp32.drv_gpio_config valid_output (Esp32.io_conf_of (Esp32.led_pin s))
             (Esp32.drv s)).1;
        Esp32.GpioSetLevel (Esp32.led_pin s) 0 Esp32.ESP_OK]
       ++ concat (repeat [Esp32.GpioSetLevel (Esp32.led_pin s) 1 Esp32.ESP_OK;
                          Esp32.VTaskDelay (500 / period);
                          Esp32.GpioSetLevel (Esp32.led_pin s) 0 Esp32.ESP_OK;
                          Esp32.VTaskDelay (500 / period)] fuel))).
  { unfold Esp32.app_main. unfold bind at 1. cbn [get].
    rewrite bind_run, esp32_gpio_setup_run.
    cbn [value_of state_of log_of fst snd].
    rewrite esp32_set_level_accepted by exact Hv. cbn [fst snd].
    change (C.cond01 0) with 0. fold s1.
    rewrite (esp32_blink_run valid_output period fuel s1 Hv Hlow). reflexivity. }
  rewrite Hrun. split; [reflexivity|]. split; [reflexivity|]. exact Hlow.
Qed.

Lemma esp32_app_main_trace_witness :
  value_of (Esp32.app_main Esp32.pins_0_33 10 3 (Esp32.boot Esp32.no_driver_state))
  = None.
Proof.
  assert (Hv : Esp32.pins_0_33 (Esp32.led_pin (Esp32.boot Esp32.no_driver_state)) = true)
    by reflexivity.
  assert (Hp : 0 < 10) by lia.
  apply (esp32_app_main_trace Esp32.pins_0_33 10 3
           (Esp32.boot Esp32.no_driver_state) Hv Hp).
Defined.








